(** * Kraan AddonsLayer controller: the layer state holder and one reconcile pass

    A shallow embedding of [pkg/internal/layers/layers.go] (the [KraanLayer]
    state holder) and of the controller file holding [processAddonLayer],
    [Reconcile], [repoMapperFunc], [SyncRepo] and [fetchArtifact], followed by
    the properties of the per-layer state machine, of the mapping of a source
    change and of the fetch.

    Go pointers to a layer become explicit state passing: every method of the
    [layers.Layer] interface is a computation over the [Runtime] of one pass,
    which also records every call that leaves the process. *)

From Stdlib Require Import String Ascii List ZArith Bool Lia.
Import ListNotations.
Local Open Scope string_scope.
Local Open Scope list_scope.

(** ** Go base types *)

(** [time.Duration] and [metav1.Time]. *)
Definition Duration := Z.
Definition Time := Z.

(** A Go [error]: its [Error()] text, and whether the cluster API reports the
    object as absent (what [client.IgnoreNotFound] looks at). *)
Inductive error : Type :=
| NewError (msg : string)
| NotFoundError (msg : string).

Definition Error (e : error) : string :=
  match e with NewError m => m | NotFoundError m => m end.

Definition IgnoreNotFound (e : error) : option error :=
  match e with NotFoundError _ => None | NewError _ => Some e end.

(** Go's [>] on strings: byte-wise lexicographic order. *)
Definition string_gtb (a b : string) : bool := String.ltb b a.

(** ** Package kraanv1alpha1: the persisted resource *)

Module kraanv1alpha1.

Record Condition := {
  cType : string;
  cVersion : string;
  cStatus : string;
  cLastTransitionTime : Time;
  cReason : string;
  cMessage : string
}.

Record SourceSpec := {
  srcName : string;
  srcNameSpace : string;
  srcPath : string
}.

Record AddonsLayerSpec := {
  specSource : SourceSpec;
  specVersion : string;
  specHold : bool;
  specK8sVersion : string;      (* Spec.PreReqs.K8sVersion *)
  specInterval : Duration       (* Spec.Interval.Duration *)
}.

Record AddonsLayerStatus := {
  stConditions : list Condition;
  stState : string;
  stVersion : string
}.

Record AddonsLayer := {
  metaName : string;            (* ObjectMeta.Name *)
  Spec : AddonsLayerSpec;
  Status : AddonsLayerStatus
}.

(** Modelled from the spec: the condition-type constants of this package are
    not among the sources; the names are the state enumeration of the
    specification (sections 3 and 6). *)
Definition HoldCondition := "Hold".
Definition K8sVersionCondition := "WaitingForClusterVersion".
Definition PrunePendingCondition := "PrunePending".
Definition PruningCondition := "Pruning".
Definition PrunedCondition := "Pruned".
Definition ApplyPendingCondition := "ApplyPending".
Definition ApplyingCondition := "Applying".
Definition DeployedCondition := "Deployed".
Definition FailedCondition := "Failed".

(** [corev1.ConditionTrue]. *)
Definition ConditionTrue := "True".

(** The reason and message texts of the package, which the sources use by
    name only: every development below is parametric in them. *)
Class Texts := {
  AddonsLayerK8sVersionReason : string;
  AddonsLayerK8sVersionMsg : string;
  AddonsLayerDeployedReason : string;
  AddonsLayerApplyPendingReason : string;
  AddonsLayerApplyPendingMsg : string;
  AddonsLayerApplyingReason : string;
  AddonsLayerApplyingMsg : string;
  AddonsLayerPrunePendingReason : string;
  AddonsLayerPrunePendingMsg : string;
  AddonsLayerPrunedReason : string;
  AddonsLayerPrunedMsg : string;
  AddonsLayerPruningReason : string;
  AddonsLayerPruningMsg : string;
  AddonsLayerHoldReason : string;
  AddonsLayerHoldMsg : string;
  AddonsLayerFailedReason : string
}.

End kraanv1alpha1.
Import kraanv1alpha1.

(** [helmopv1.HelmRelease], as far as the controller looks into it. *)
Record OwnerReference := {
  ownerAPIVersion : string;
  ownerKind : string;
  ownerName : string
}.

Record HelmRelease := {
  hrNamespace : string;
  hrName : string;
  hrController : option OwnerReference   (* metav1.GetControllerOf *)
}.

(** ** Package layers: the state holder *)

(** The handles a layer keeps on the cluster, by what they answer. *)
Record Clientset := {
  ServerVersion : string * option error   (* Discovery().ServerVersion(), rendered by String() *)
}.

Record Client := {
  List_ : list AddonsLayer * option error;            (* client.List of all AddonsLayers *)
  Get : string -> AddonsLayer * option error;         (* client.Get by name *)
  StatusUpdate_ : AddonsLayer -> option error         (* client.Status().Update *)
}.

Record KraanLayer := {
  updated : bool;
  requeue : bool;
  delayed : bool;
  delay : Duration;
  client : Client;
  k8client : Clientset;
  addonsLayer : AddonsLayer
}.

(** MaxConditions is the maximum number of condtions to retain. *)
Definition MaxConditions : nat := 10.
Definition rootPath := "/repos".

(** Every call that leaves the process during a pass. *)
Inductive Call : Type :=
| CallServerVersion
| CallList
| CallPruneIsRequired
| CallPrune (hrs : list HelmRelease)
| CallApplyIsRequired
| CallApply
| CallApplyWasSuccessful
| CallStatusUpdate (a : AddonsLayer).

(** What the surroundings of a pass answer apart from the handles above:
    the clock behind [metav1.Now()], by the number of earlier readings, and
    the answer of [l.DependenciesDeployed()] as the controller obtains it
    through the [layers.Layer] interface. *)
Record World := {
  Now : nat -> Time;
  Resolver : KraanLayer -> bool
}.

(** The state of one pass: the layer behind the pointer [l], the number of
    clock readings so far, and the calls issued, oldest first. *)
Record Runtime := {
  layer : KraanLayer;
  clockReads : nat;
  calls : list Call
}.

Definition M (A : Type) : Type := Runtime -> A * Runtime.

Definition ret {A} (a : A) : M A := fun s => (a, s).
Definition bind {A B} (c : M A) (k : A -> M B) : M B :=
  fun s => let (a, s') := c s in k a s'.

Notation "x <- c ;; k" := (bind c (fun x => k))
  (at level 61, c at next level, right associativity).
Notation "' pat <- c ;; k" := (bind c (fun x => match x with pat => k end))
  (at level 61, pat pattern, c at next level, right associativity).
Notation "c ;; k" := (bind c (fun _ => k))
  (at level 61, right associativity).

Definition exec {A} (c : M A) (s : Runtime) : Runtime := snd (c s).
Definition eval {A} (c : M A) (s : Runtime) : A := fst (c s).

Definition getLayer : M KraanLayer := fun s => (layer s, s).
Definition modifyLayer (f : KraanLayer -> KraanLayer) : M unit :=
  fun s => (tt, {| layer := f (layer s); clockReads := clockReads s; calls := calls s |}).
Definition emit (c : Call) : M unit :=
  fun s => (tt, {| layer := layer s; clockReads := clockReads s; calls := calls s ++ [c] |}).
Definition readClock (w : World) : M Time :=
  fun s => (Now w (clockReads s),
            {| layer := layer s; clockReads := S (clockReads s); calls := calls s |}).

(** Field updates of the Go structs. *)
Definition withUpdated (b : bool) (l : KraanLayer) : KraanLayer :=
  {| updated := b; requeue := requeue l; delayed := delayed l; delay := delay l;
     client := client l; k8client := k8client l; addonsLayer := addonsLayer l |}.
Definition withRequeue (b : bool) (l : KraanLayer) : KraanLayer :=
  {| updated := updated l; requeue := b; delayed := delayed l; delay := delay l;
     client := client l; k8client := k8client l; addonsLayer := addonsLayer l |}.
Definition withDelayed (b : bool) (l : KraanLayer) : KraanLayer :=
  {| updated := updated l; requeue := requeue l; delayed := b; delay := delay l;
     client := client l; k8client := k8client l; addonsLayer := addonsLayer l |}.
Definition withStatus (st : AddonsLayerStatus) (l : KraanLayer) : KraanLayer :=
  {| updated := updated l; requeue := requeue l; delayed := delayed l; delay := delay l;
     client := client l; k8client := k8client l;
     addonsLayer := {| metaName := metaName (addonsLayer l);
                       Spec := Spec (addonsLayer l);
                       Status := st |} |}.

Definition layerStatus (l : KraanLayer) : AddonsLayerStatus := Status (addonsLayer l).
Definition layerSpec (l : KraanLayer) : AddonsLayerSpec := Spec (addonsLayer l).
Definition withConditions (cs : list Condition) (l : KraanLayer) : KraanLayer :=
  withStatus {| stConditions := cs;
                stState := stState (layerStatus l);
                stVersion := stVersion (layerStatus l) |} l.
Definition withState (s : string) (l : KraanLayer) : KraanLayer :=
  withStatus {| stConditions := stConditions (layerStatus l);
                stState := s;
                stVersion := stVersion (layerStatus l) |} l.
Definition withVersion (v : string) (l : KraanLayer) : KraanLayer :=
  withStatus {| stConditions := stConditions (layerStatus l);
                stState := stState (layerStatus l);
                stVersion := v |} l.

(** CreateLayer creates a layer object. *)
Definition CreateLayer (c : Client) (k : Clientset) (a : AddonsLayer) : KraanLayer :=
  {| requeue := false; delayed := false; updated := false;
     client := c; k8client := k; addonsLayer := a;
     delay := specInterval (Spec a) |}.

Section Layers.

Context {texts : Texts}.
Variable w : World.

Definition SetRequeue : M unit := modifyLayer (withRequeue true).
Definition SetUpdated : M unit := modifyLayer (withUpdated true).
Definition SetDelayed : M unit := modifyLayer (withDelayed true).

Definition GetFullStatus : M AddonsLayerStatus := l <- getLayer ;; ret (layerStatus l).
Definition GetSpec : M AddonsLayerSpec := l <- getLayer ;; ret (layerSpec l).
Definition GetAddonsLayer : M AddonsLayer := l <- getLayer ;; ret (addonsLayer l).
Definition GetRequiredK8sVersion : M string :=
  l <- getLayer ;; ret (specK8sVersion (layerSpec l)).
Definition getK8sClient : M Clientset := l <- getLayer ;; ret (k8client l).
Definition GetStatus : M string := l <- getLayer ;; ret (stState (layerStatus l)).
Definition GetName : M string := l <- getLayer ;; ret (metaName (addonsLayer l)).
Definition IsHold : M bool := l <- getLayer ;; ret (specHold (layerSpec l)).
Definition IsUpdated : M bool := l <- getLayer ;; ret (updated l).
Definition IsDelayed : M bool := l <- getLayer ;; ret (delayed l).
Definition NeedsRequeue : M bool := l <- getLayer ;; ret (requeue l).
Definition GetDelay : M Duration := l <- getLayer ;; ret (delay l).

(** The commented-out [trimConditions] of the source is not called. *)
Definition setStatus (status reason message : string) : M unit :=
  now <- readClock w ;;
  modifyLayer (fun l =>
    withConditions (stConditions (layerStatus l) ++
                    [ {| cType := status;
                         cVersion := specVersion (layerSpec l);
                         cStatus := ConditionTrue;
                         cLastTransitionTime := now;
                         cReason := reason;
                         cMessage := message |} ]) l) ;;
  modifyLayer (withState status) ;;
  modifyLayer (fun l => withVersion (specVersion (layerSpec l)) l) ;;
  modifyLayer (withUpdated true) ;;
  modifyLayer (withRequeue true).

(** StatusUpdate sets the addon layer's status. *)
Definition StatusUpdate (status reason message : string) : M unit :=
  setStatus status reason message.

(** CheckK8sVersion checks if the cluster api server version is equal to or
    above the required version. *)
Definition CheckK8sVersion : M bool :=
  k <- getK8sClient ;;
  emit CallServerVersion ;;
  let (versionInfo, err) := ServerVersion k in
  match err with
  | Some e =>
      st <- GetStatus ;;
      StatusUpdate st "failed to obtain cluster api server version" (Error e) ;;
      SetDelayed ;;
      ret false
  | None =>
      required <- GetRequiredK8sVersion ;;
      ret (string_gtb versionInfo required)
  end.

Definition SetStatusK8sVersion : M unit :=
  setStatus K8sVersionCondition AddonsLayerK8sVersionReason AddonsLayerK8sVersionMsg.

Definition SetStatusDeployed : M unit :=
  st <- GetStatus ;;
  if negb (st =? DeployedCondition)
  then setStatus DeployedCondition AddonsLayerDeployedReason ""
  else ret tt.

Definition SetStatusApplyPending : M unit :=
  setStatus ApplyPendingCondition AddonsLayerApplyPendingReason AddonsLayerApplyPendingMsg.

Definition SetStatusApplying : M unit :=
  setStatus ApplyingCondition AddonsLayerApplyingReason AddonsLayerApplyingMsg.

Definition SetStatusPrunePending : M unit :=
  setStatus PrunePendingCondition AddonsLayerPrunePendingReason AddonsLayerPrunePendingMsg.

Definition SetStatusPruned : M unit :=
  setStatus PrunedCondition AddonsLayerPrunedReason AddonsLayerPrunedMsg.

Definition SetStatusPruning : M unit :=
  setStatus PruningCondition AddonsLayerPruningReason AddonsLayerPruningMsg.

Definition SetStatusPruningToPruned : M unit :=
  st <- GetStatus ;;
  st' <- GetStatus ;;
  if (st =? PruningCondition) || (st' =? PrunePendingCondition)
  then SetStatusPruned
  else ret tt.

(** SetHold sets the hold status. *)
Definition SetHold : M unit :=
  hold <- IsHold ;;
  st <- GetStatus ;;
  if hold && negb (st =? HoldCondition)
  then StatusUpdate HoldCondition AddonsLayerHoldReason AddonsLayerHoldMsg ;;
       modifyLayer (withUpdated true)
  else ret tt.

(** The predicates and actions the source leaves as fixed answers. *)
Definition IsPruningRequired : M bool := ret true.
Definition AllPruned : M bool := ret false.
Definition DependenciesDeployed : M bool := ret false.
Definition IsApplyRequired : M bool := ret false.
Definition SuccessfullyApplied : M bool := ret false.
Definition Apply_ : M (option error) := ret None.
Definition Prune_ : M (option error) := ret None.
Definition SetAllPrunedToApplyPending : M (option error) := ret None.

(** GetSourcePath gets the path to the addons layer's top directory in the
    local filesystem. *)
Definition GetSourcePath : M string :=
  l <- getLayer ;;
  ret (rootPath ++ "/" ++ srcNameSpace (specSource (layerSpec l)) ++ "/"
       ++ srcName (specSource (layerSpec l)) ++ "/"
       ++ srcPath (specSource (layerSpec l)))%string.

(** Modelled from the spec: [SetDelayedRequeue] is called by the controller
    but is not among the methods of the layers source; it marks the pass for
    a delayed requeue (section 4.1), which the scheduling of section 4.3 and
    [updateRequeue] read from both the needs-requeue and the delayed flag. *)
Definition SetDelayedRequeue : M unit :=
  modifyLayer (withDelayed true) ;;
  modifyLayer (withRequeue true).

(** The operations of a layer that can change it, as data. *)
Inductive LayerOp : Type :=
| OpSetRequeue | OpSetUpdated | OpSetDelayed | OpSetDelayedRequeue
| OpSetStatusK8sVersion | OpSetStatusDeployed | OpSetStatusApplyPending
| OpSetStatusApplying | OpSetStatusPrunePending | OpSetStatusPruned
| OpSetStatusPruning | OpSetStatusPruningToPruned
| OpStatusUpdate (status reason message : string)
| OpSetHold | OpCheckK8sVersion.

Definition runOp (op : LayerOp) : M unit :=
  match op with
  | OpSetRequeue => SetRequeue
  | OpSetUpdated => SetUpdated
  | OpSetDelayed => SetDelayed
  | OpSetDelayedRequeue => SetDelayedRequeue
  | OpSetStatusK8sVersion => SetStatusK8sVersion
  | OpSetStatusDeployed => SetStatusDeployed
  | OpSetStatusApplyPending => SetStatusApplyPending
  | OpSetStatusApplying => SetStatusApplying
  | OpSetStatusPrunePending => SetStatusPrunePending
  | OpSetStatusPruned => SetStatusPruned
  | OpSetStatusPruning => SetStatusPruning
  | OpSetStatusPruningToPruned => SetStatusPruningToPruned
  | OpStatusUpdate status reason message => StatusUpdate status reason message
  | OpSetHold => SetHold
  | OpCheckK8sVersion => CheckK8sVersion ;; ret tt
  end.

(** The operations that always go through [setStatus]. *)
Definition isTransition (op : LayerOp) : bool :=
  match op with
  | OpSetStatusK8sVersion | OpSetStatusApplyPending | OpSetStatusApplying
  | OpSetStatusPrunePending | OpSetStatusPruned | OpSetStatusPruning
  | OpStatusUpdate _ _ _ => true
  | _ => false
  end.

End Layers.

(** ** Package apply: the executor, by what it answers for a layer *)

Record LayerApplier := {
  PruneIsRequired : KraanLayer -> bool * list HelmRelease * option error;
  Prune : KraanLayer -> list HelmRelease -> option error;
  ApplyIsRequired : KraanLayer -> bool * option error;
  Apply : KraanLayer -> option error;
  ApplyWasSuccessful : KraanLayer -> bool * option error
}.

(** ** Package controllers: one reconcile pass *)

(** [ctrl.Result]. *)
Record Result := {
  Requeue : bool;
  RequeueAfter : Duration
}.

Definition emptyResult : Result := {| Requeue := false; RequeueAfter := 0%Z |}.

(** AddonsLayerReconciler reconciles a AddonsLayer object. *)
Record AddonsLayerReconciler := {
  rClient : Client;
  rk8client : Clientset;
  Applier : LayerApplier
}.

Section Controller.

Context {texts : Texts}.
Variable w : World.
Variable r : AddonsLayerReconciler.

Definition processPrune : M (bool * option error) :=
  let applier := Applier r in
  l <- getLayer ;;
  emit CallPruneIsRequired ;;
  let '(pruneIsRequired, hrs, err) := PruneIsRequired applier l in
  match err with
  | Some _ => ret (false, err)
  | None =>
      if pruneIsRequired then
        SetStatusPruning w ;;
        l <- getLayer ;;
        emit (CallPrune hrs) ;;
        let pruneErr := Prune applier l hrs in
        (* the source tests [err], not [pruneErr] *)
        match err with
        | Some _ => ret (true, pruneErr)
        | None => SetDelayedRequeue ;; ret (true, None)
        end
      else ret (false, None)
  end.

Definition processApply : M (bool * option error) :=
  let applier := Applier r in
  l <- getLayer ;;
  emit CallApplyIsRequired ;;
  let '(applyIsRequired, err) := ApplyIsRequired applier l in
  match err with
  | Some _ => ret (false, err)
  | None =>
      if applyIsRequired then
        l <- getLayer ;;
        if negb (Resolver w l) then
          SetDelayedRequeue ;; ret (true, None)
        else
          SetStatusApplying w ;;
          l <- getLayer ;;
          emit CallApply ;;
          let applyErr := Apply applier l in
          (* the source tests [err], not [applyErr] *)
          match err with
          | Some _ => ret (true, applyErr)
          | None => SetDelayedRequeue ;; ret (true, None)
          end
      else ret (false, None)
  end.

Definition checkSuccess : M (option error) :=
  let applier := Applier r in
  l <- getLayer ;;
  emit CallApplyWasSuccessful ;;
  let '(applyWasSuccessful, err) := ApplyWasSuccessful applier l in
  match err with
  | Some _ => ret err
  | None =>
      if negb applyWasSuccessful then
        SetDelayedRequeue ;; ret None
      else
        SetStatusDeployed w ;; ret None
  end.

Definition processAddonLayer : M (option error) :=
  hold <- IsHold ;;
  if hold then
    SetHold w ;; ret None
  else
    ok <- CheckK8sVersion w ;;
    if negb ok then
      SetStatusK8sVersion w ;;
      SetDelayedRequeue ;;
      ret None
    else
      '(layerStatusUpdated, err) <- processPrune ;;
      match err with
      | Some _ => ret err
      | None =>
          if layerStatusUpdated then ret None
          else
            '(layerStatusUpdated, err) <- processApply ;;
            match err with
            | Some _ => ret err
            | None =>
                if layerStatusUpdated then ret None
                else checkSuccess
            end
      end.

Definition update (a : AddonsLayer) : M (option error) :=
  emit (CallStatusUpdate a) ;;
  ret (StatusUpdate_ (rClient r) a).

(** [res] and [rerr] are the values behind the two out-pointers. *)
Definition updateRequeue (res : Result) (rerr : option error)
  : M (Result * option error) :=
  isUpdated <- IsUpdated ;;
  rerr <- (if isUpdated then a <- GetAddonsLayer ;; update a else ret rerr) ;;
  needsRequeue <- NeedsRequeue ;;
  if needsRequeue then
    isDelayed <- IsDelayed ;;
    if isDelayed then
      d <- GetDelay ;;
      ret ({| Requeue := true; RequeueAfter := d |}, rerr)
    else
      ret ({| Requeue := true; RequeueAfter := 0%Z |}, rerr)
  else ret (res, rerr).

(** The pass of [Reconcile] once the layer has been loaded. *)
Definition reconcileLayer : M (Result * option error) :=
  err <- processAddonLayer ;;
  match err with
  | Some e => StatusUpdate w FailedCondition AddonsLayerFailedReason (Error e)
  | None => ret tt
  end ;;
  updateRequeue emptyResult None.

Definition startOf (l : KraanLayer) : Runtime :=
  {| layer := l; clockReads := 0; calls := [] |}.

(** Reconcile process AddonsLayers custom resources.  The last component is
    the state the pass ends in, when a layer was loaded. *)
Definition Reconcile (req : string) : Result * option error * option Runtime :=
  let (addonsLayer, err) := Get (rClient r) req in
  match err with
  | Some e => (emptyResult, IgnoreNotFound e, None)
  | None =>
      let l := CreateLayer (rClient r) (rk8client r) addonsLayer in
      let (out, s) := reconcileLayer (startOf l) in
      (out, Some s)
  end.

End Controller.

(** ** Package controllers: what a source change carries *)

Module Sync.

(** [sourcev1.GitRepository], as far as the mapping reads it. *)
Record Artifact := {
  artURL : string;
  artRevision : string
}.

Record GitRepository := {
  repoName : string;
  repoNamespace : string;
  repoArtifact : option Artifact
}.

(** [schema.GroupVersionKind] and its [String()]. *)
Record GroupVersionKind := {
  gvkGroup : string;
  gvkVersion : string;
  gvkKind : string
}.

Definition gvkString (k : GroupVersionKind) : string :=
  (gvkGroup k ++ "/" ++ gvkVersion k ++ ", Kind=" ++ gvkKind k)%string.

(** The object of a [handler.MapObject]: its kind, and the repository behind
    it when the dynamic type is [*sourcev1.GitRepository]. *)
Record MapObject := {
  objKind : GroupVersionKind;
  objRepository : option GitRepository
}.

Definition GitRepositoryKind := "GitRepository".

(** [reconcile.Request]. *)
Record Request := {
  reqName : string;
  reqNamespace : string
}.

(** What [repoMapperFunc] itself writes to the log of the reconciler:
    [Log.Error] with the text of the error and the message, [Log.Info] with
    the message and its key and value. *)
Inductive LogEntry : Type :=
| LogError (err : string) (msg : string)
| LogInfo (msg : string) (key value : string).

(** How a call of the mapping ends: it returns, the process exits, or the
    goroutine panics. *)
Inductive Outcome (A : Type) : Type :=
| Returned (a : A)
| Exited (code : Z)
| Panicked (reason : string).
Arguments Returned {A} a.
Arguments Exited {A} code.
Arguments Panicked {A} reason.

End Sync.

(** ** Package controllers: fetching the artifact of a repository *)

Module Fetch.

Import Sync.

(** [http.Response], as far as [fetchArtifact] reads it. *)
Record Response := {
  StatusCode : Z;
  Status : string;
  Body : string
}.

Definition StatusOK : Z := 200%Z.

(** How a call ends: it returns, or the goroutine panics. *)
Inductive Run (A : Type) : Type :=
| Done (a : A)
| Panicked (reason : string).
Arguments Done {A} a.
Arguments Panicked {A} reason.

Section Fetching.

Variable Disk : Type.

(** What the operating system and the network answer: [os.Getenv],
    [ioutil.TempDir] with an empty directory argument, [http.NewRequest] of a
    GET by its error, [http.DefaultClient.Do] (bounded by the 15 seconds of
    the context, which shows as its error), [untar.Untar] and
    [ioutil.ReadDir]. *)
Record Net := {
  Getenv : string -> string;
  TempDir : string -> Disk -> string * option error * Disk;
  NewRequest : string -> option error;
  Do : string -> Response * option error;
  Untar : string -> string -> Disk -> string * option error * Disk;
  ReadDir : string -> Disk -> list string * option error
}.

Variable net : Net.

Definition fetchArtifact (repository : GitRepository) (dir : string) (d : Disk)
  : string * option error * Disk :=
  match repoArtifact repository with
  | None =>
      ("", Some (NewError ("repository " ++ repoName repository
                             ++ " does not containt an artifact")%string), d)
  | Some artifact =>
      let url := artURL artifact in
      let hostname := Getenv net "SOURCE_HOST" in
      let url :=
        if negb (hostname =? "")
        then ("http://" ++ hostname ++ "/gitrepository/" ++ repoNamespace repository
                ++ "/" ++ repoName repository ++ "/latest.tar.gz")%string
        else url in
      match NewRequest net url with
      | Some err =>
          ("", Some (NewError ("failed to create HTTP request, error: "
                                 ++ Error err)%string), d)
      | None =>
          let (resp, err) := Do net url in
          match err with
          | Some err =>
              ("", Some (NewError ("failed to download artifact from " ++ url
                                     ++ ", error: " ++ Error err)%string), d)
          | None =>
              if negb (StatusCode resp =? StatusOK)%Z
              then ("", Some (NewError ("faild to download artifact, status: "
                                          ++ Status resp)%string), d)
              else
                let '(summary, err, d) := Untar net (Body resp) dir d in
                match err with
                | Some err =>
                    ("", Some (NewError ("faild to untar artifact, error: "
                                           ++ Error err)%string), d)
                | None => (summary, None, d)
                end
          end
      end
  end.

(** The first statement logs [repository.Status.Artifact.Revision]: with no
    artifact the pointer is nil and the dereference panics. *)
Definition SyncRepo (repository : GitRepository) (d : Disk)
  : Run (string * option error * Disk) :=
  match repoArtifact repository with
  | None => Panicked "invalid memory address or nil pointer dereference"
  | Some artifact =>
      let '(tmpDir, err, d) :=
        TempDir net (repoName repository ++ "/" ++ artRevision artifact ++ "-*")%string d in
      match err with
      | Some err =>
          Done ("", Some (NewError ("failed to create temp dir, error: "
                                      ++ Error err)%string), d)
      | None =>
          let '(summary, err, d) := fetchArtifact repository tmpDir d in
          match err with
          | Some _ => Done ("", err, d)
          | None =>
              let (files, err) := ReadDir net tmpDir d in
              match err with
              | Some err =>
                  Done ("", Some (NewError ("faild to list files, error: "
                                              ++ Error err)%string), d)
              | None => Done (tmpDir, None, d)
              end
          end
      end
  end.

End Fetching.

Arguments Getenv {Disk} _ _.
Arguments TempDir {Disk} _ _ _.
Arguments NewRequest {Disk} _ _.
Arguments Do {Disk} _ _.
Arguments Untar {Disk} _ _ _ _.
Arguments ReadDir {Disk} _ _ _.
Arguments fetchArtifact {Disk} net repository dir d.
Arguments SyncRepo {Disk} net repository d.

End Fetch.

(** ** Package controllers: mapping a source change to reconcile requests *)

Module Mapper.

Import Sync.

Section Mapping.

(** The filesystem, abstractly. *)
Variable Disk : Type.

(** What [SyncRepo] and [fetchArtifact] see of the system and the network. *)
Variable net : Fetch.Net Disk.

(** What the host answers besides: the root of the source tree (the variable
    [RootPath], set from REPOS_PATH when the package is initialised) and
    [os.Link]. *)
Record Host := {
  RootPath : string;
  Link : string -> string -> Disk -> option error * Disk
}.

Variable h : Host.

(** The reconciler behind the package-level variable [reconciler]. *)
Variable r : AddonsLayerReconciler.

(** Modelled from the spec: the controller's own [GetSourcePath] is not among
    the sources; the tree is organised as root/namespace/repository-name/
    declared-path (section 6), which is also what the method of the same name
    in package layers builds. *)
Definition GetSourcePath (addon : AddonsLayer) : string :=
  (RootPath h ++ "/" ++ srcNameSpace (specSource (Spec addon)) ++ "/"
     ++ srcName (specSource (Spec addon)) ++ "/"
     ++ srcPath (specSource (Spec addon)))%string.

Definition requestFor (addon : AddonsLayer) : Request :=
  {| reqName := metaName addon; reqNamespace := "" |}.

Definition references (repo : GitRepository) (addon : AddonsLayer) : bool :=
  (srcName (specSource (Spec addon)) =? repoName repo)
  && (srcNameSpace (specSource (Spec addon)) =? repoNamespace repo).

(** The [for _, addon := range addonsList.Items] loop of [repoMapperFunc];
    [addons] is the slice built so far. *)
Fixpoint linkLayers (repo : GitRepository) (dataPath : string)
    (items : list AddonsLayer) (addons : list Request)
    (d : Disk) (log : list LogEntry)
  : Outcome (list Request) * Disk * list LogEntry :=
  match items with
  | [] => (Returned addons, d, log)
  | addon :: rest =>
      let addons := if references repo addon
                    then addons ++ [requestFor addon] else addons in
      let log := log ++ [LogInfo "adding layer to list" "layer" (metaName addon)] in
      let addonsPath := GetSourcePath addon in
      let (err, d) :=
        Link h addonsPath (dataPath ++ "/" ++ srcPath (specSource (Spec addon)))%string d in
      match err with
      | Some e =>
          (Exited 1%Z, d,
           log ++ [LogError (Error e)
                     ("unable link to new data for addonsLayers: " ++ metaName addon)%string])
      | None => linkLayers repo dataPath rest addons d log
      end
  end.

(** [SyncRepo] is the function of the same file, embedded as [Fetch.SyncRepo];
    a panic inside it is not recovered here. *)
Definition repoMapperFunc (a : MapObject) (d : Disk)
  : Outcome (list Request) * Disk * list LogEntry :=
  let kind := objKind a in
  let log :=
    if negb (gvkKind kind =? GitRepositoryKind)
    then [LogError ("unexpected object kind: " ++ gvkString kind ++ ", only "
                      ++ GitRepositoryKind ++ " supported")%string
                   "unexpected kind, continuing"]
    else [] in
  match objRepository a with
  | None =>
      (Returned [], d,
       log ++ [LogError "unable to cast object to GitRepository" "skipping processing"])
  | Some repo =>
      match Fetch.SyncRepo net repo d with
      | Fetch.Panicked reason => (Panicked reason, d, log)
      | Fetch.Done (dataPath, err, d) =>
          match err with
          | Some e =>
              (Returned [], d, log ++ [LogError (Error e) "unable to sync repository"])
          | None =>
              let (items, err) := List_ (rClient r) in
              match err with
              | Some e =>
                  (Returned [], d,
                   log ++ [LogError (Error e) "unable to list AddonsLayers"])
              | None => linkLayers repo dataPath items [] d log
              end
          end
      end
  end.

(** The disk after every link of [items] has succeeded, if they all do. *)
Fixpoint linksSucceed (dataPath : string) (items : list AddonsLayer) (d : Disk)
  : option Disk :=
  match items with
  | [] => Some d
  | addon :: rest =>
      let (err, d) :=
        Link h (GetSourcePath addon)
             (dataPath ++ "/" ++ srcPath (specSource (Spec addon)))%string d in
      match err with
      | Some _ => None
      | None => linksSucceed dataPath rest d
      end
  end.

End Mapping.

Arguments RootPath {Disk} _.
Arguments Link {Disk} _ _ _ _.
Arguments GetSourcePath {Disk} h addon.
Arguments linkLayers {Disk} h repo dataPath items addons d log.
Arguments repoMapperFunc {Disk} net h r a d.
Arguments linksSucceed {Disk} h dataPath items d.

End Mapper.

(** ** Vocabulary of the properties *)

(** The five calls of the executor contract. *)
Definition isExecutorCall (c : Call) : bool :=
  match c with
  | CallPruneIsRequired | CallPrune _ | CallApplyIsRequired | CallApply
  | CallApplyWasSuccessful => true
  | _ => false
  end.

(** The two executor calls that change the cluster. *)
Definition isMutation (c : Call) : bool :=
  match c with
  | CallPrune _ | CallApply => true
  | _ => false
  end.

Definition isPrune (c : Call) : bool :=
  match c with CallPrune _ => true | _ => false end.

Definition isApply (c : Call) : bool :=
  match c with CallApply => true | _ => false end.

(** The calls of the apply branch of [processAddonLayer]. *)
Definition reachesApply (c : Call) : bool :=
  match c with CallApplyIsRequired | CallApply => true | _ => false end.

Definition isStatusUpdate (c : Call) : bool :=
  match c with CallStatusUpdate _ => true | _ => false end.

Definition mutations (cs : list Call) : nat := length (filter isMutation cs).

(** The most recently appended condition. *)
Definition latest (cs : list Condition) : option Condition := hd_error (rev cs).

(** [state] equals the type of the most recently appended condition. *)
Definition stateMatchesLatest (st : AddonsLayerStatus) : Prop :=
  match latest (stConditions st) with
  | Some c => cType c = stState st
  | None => True
  end.

Definition statusOf (s : Runtime) : AddonsLayerStatus := layerStatus (layer s).
Definition conditionsOf (s : Runtime) : list Condition := stConditions (statusOf s).
Definition stateOf (s : Runtime) : string := stState (statusOf s).

(** Whether a pattern holds a path separator. *)
Fixpoint hasSeparator (s : string) : bool :=
  match s with
  | EmptyString => false
  | String c s' => (c =? "/")%char || hasSeparator s'
  end.

(** [ioutil.TempDir] as Go 1.15 and later have it: a pattern that holds a path
    separator is rejected before anything is created. *)
Definition rejectsSeparators {Disk : Type} (net : Fetch.Net Disk) : Prop :=
  forall (pattern : string) (d : Disk),
    hasSeparator pattern = true ->
    exists e, Fetch.TempDir net pattern d = ("", Some e, d).

(** The implementation of the resolver in package layers, as a [World]
    component. *)
Definition kraanResolver (l : KraanLayer) : bool :=
  eval DependenciesDeployed (startOf l).

(** ** Sample inputs *)

Definition sampleTexts : Texts := {|
  AddonsLayerK8sVersionReason := "waiting for the required K8sVersion";
  AddonsLayerK8sVersionMsg := "cluster version below the required version";
  AddonsLayerDeployedReason := "deployed";
  AddonsLayerApplyPendingReason := "apply pending";
  AddonsLayerApplyPendingMsg := "waiting to be applied";
  AddonsLayerApplyingReason := "applying";
  AddonsLayerApplyingMsg := "apply in progress";
  AddonsLayerPrunePendingReason := "prune pending";
  AddonsLayerPrunePendingMsg := "waiting to be pruned";
  AddonsLayerPrunedReason := "pruned";
  AddonsLayerPrunedMsg := "pruning done";
  AddonsLayerPruningReason := "pruning";
  AddonsLayerPruningMsg := "prune in progress";
  AddonsLayerHoldReason := "hold";
  AddonsLayerHoldMsg := "held by the operator";
  AddonsLayerFailedReason := "failed"
|}.

Definition sampleWorld : World :=
  {| Now := fun n => Z.of_nat n; Resolver := kraanResolver |}.

(** A world whose resolver reports every dependency deployed. *)
Definition readyWorld : World :=
  {| Now := fun n => Z.of_nat n; Resolver := fun _ => true |}.

Definition sampleSpec (hold : bool) (required : string) : AddonsLayerSpec :=
  {| specSource := {| srcName := "addons"; srcNameSpace := "gitops"; srcPath := "base" |};
     specVersion := "0.1.1";
     specHold := hold;
     specK8sVersion := required;
     specInterval := 60%Z |}.

Definition sampleAddons (hold : bool) (required : string)
    (cs : list Condition) (state : string) : AddonsLayer :=
  {| metaName := "base";
     Spec := sampleSpec hold required;
     Status := {| stConditions := cs; stState := state; stVersion := "" |} |}.

Definition sampleCondition (type : string) : Condition :=
  {| cType := type; cVersion := "0.1.0"; cStatus := ConditionTrue;
     cLastTransitionTime := 0%Z; cReason := "earlier"; cMessage := "" |}.

(** An executor with nothing to prune, nothing to apply and a ready layer. *)
Definition quietApplier : LayerApplier :=
  {| PruneIsRequired := fun _ => (false, [], None);
     Prune := fun _ _ => None;
     ApplyIsRequired := fun _ => (false, None);
     Apply := fun _ => None;
     ApplyWasSuccessful := fun _ => (true, None) |}.

Definition sampleHelmRelease : HelmRelease :=
  {| hrNamespace := "base"; hrName := "stale"; hrController := None |}.

(** An executor that finds a release to prune and whose [Prune] fails. *)
Definition pruneFailsApplier : LayerApplier :=
  {| PruneIsRequired := fun _ => (true, [sampleHelmRelease], None);
     Prune := fun _ _ => Some (NewError "prune: connection refused");
     ApplyIsRequired := fun _ => (false, None);
     Apply := fun _ => None;
     ApplyWasSuccessful := fun _ => (true, None) |}.

(** An executor with an apply pending, whose [Apply] fails. *)
Definition applyFailsApplier : LayerApplier :=
  {| PruneIsRequired := fun _ => (false, [], None);
     Prune := fun _ _ => None;
     ApplyIsRequired := fun _ => (true, None);
     Apply := fun _ => Some (NewError "apply: timed out");
     ApplyWasSuccessful := fun _ => (false, None) |}.

Definition sampleClient (a : AddonsLayer) : Client :=
  {| List_ := ([a], None);
     Get := fun _ => (a, None);
     StatusUpdate_ := fun _ => None |}.

Definition sampleClientset (version : string) : Clientset :=
  {| ServerVersion := (version, None) |}.

Definition sampleReconciler (applier : LayerApplier) (version : string)
    (a : AddonsLayer) : AddonsLayerReconciler :=
  {| rClient := sampleClient a;
     rk8client := sampleClientset version;
     Applier := applier |}.

Definition sampleLayer (version : string) (a : AddonsLayer) : KraanLayer :=
  CreateLayer (sampleClient a) (sampleClientset version) a.

(** A layer whose history already holds [MaxConditions] conditions. *)
Definition fullHistory : list Condition :=
  repeat (sampleCondition DeployedCondition) MaxConditions.

(** A layer on hold that was applying, and a layer waiting to be applied. *)
Definition heldLayer : KraanLayer :=
  sampleLayer "v1.18.0"
    (sampleAddons true "v1.17.0" [sampleCondition ApplyingCondition] ApplyingCondition).

Definition pendingLayer : KraanLayer :=
  sampleLayer "v1.18.0"
    (sampleAddons false "v1.17.0" [sampleCondition ApplyPendingCondition]
       ApplyPendingCondition).

(** A layer that requires exactly the version the cluster runs. *)
Definition exactLayer : KraanLayer :=
  sampleLayer "v1.18.0" (sampleAddons false "v1.18.0" [] "").

(** A deployed layer with a full history. *)
Definition fullLayer : KraanLayer :=
  sampleLayer "v1.18.0" (sampleAddons false "v1.17.0" fullHistory DeployedCondition).

(** The pass of [Reconcile] at a failing Prune, at a failing Apply with every
    dependency deployed, and at a cluster running exactly the required
    version. *)
Definition prunePass : Result * option error * option Runtime :=
  Reconcile (texts:=sampleTexts) sampleWorld
    (sampleReconciler pruneFailsApplier "v1.18.0" (addonsLayer pendingLayer)) "base".

Definition applyPass : Result * option error * option Runtime :=
  Reconcile (texts:=sampleTexts) readyWorld
    (sampleReconciler applyFailsApplier "v1.18.0" (addonsLayer pendingLayer)) "base".

Definition exactPass : Result * option error * option Runtime :=
  Reconcile (texts:=sampleTexts) sampleWorld
    (sampleReconciler quietApplier "v1.18.0" (addonsLayer exactLayer)) "base".

(** A source change for a repository that two layers reference; the link of
    the first layer fails. *)
Definition sampleRepo : Sync.GitRepository :=
  {| Sync.repoName := "addons"; Sync.repoNamespace := "gitops";
     Sync.repoArtifact := Some {| Sync.artURL := "http://source/addons.tar.gz";
                                  Sync.artRevision := "master/1a2b3c" |} |}.

Definition layerNamed (name path : string) : AddonsLayer :=
  {| metaName := name;
     Spec := {| specSource := {| srcName := "addons"; srcNameSpace := "gitops";
                                 srcPath := path |};
                specVersion := "0.1.1"; specHold := false;
                specK8sVersion := "v1.17.0"; specInterval := 60%Z |};
     Status := {| stConditions := []; stState := ""; stVersion := "" |} |}.

Definition sampleHost : Mapper.Host (list (string * string)) :=
  {| Mapper.RootPath := "/repos";
     Mapper.Link := fun oldname newname d =>
       if newname =? "/tmp/addons-1/bootstrap"
       then (Some (NewError "link: operation not permitted"), d)
       else (None, d ++ [(oldname, newname)]) |}.

Definition twoLayersReconciler : AddonsLayerReconciler :=
  {| rClient := {| List_ := ([layerNamed "bootstrap" "bootstrap"; layerNamed "base" "base"],
                             None);
                   Get := fun _ => (layerNamed "base" "base", None);
                   StatusUpdate_ := fun _ => None |};
     rk8client := sampleClientset "v1.18.0";
     Applier := quietApplier |}.

Definition kindOf (kind : string) : Sync.GroupVersionKind :=
  {| Sync.gvkGroup := "source.toolkit.fluxcd.io"; Sync.gvkVersion := "v1alpha1";
     Sync.gvkKind := kind |}.

Definition sampleChange : Sync.MapObject :=
  {| Sync.objKind := kindOf "GitRepository"; Sync.objRepository := Some sampleRepo |}.

(** [ioutil.TempDir] with an empty directory argument on a system whose
    temporary directory is /tmp. *)
Definition sampleTempDir (pattern : string) (d : list (string * string))
  : string * option error * list (string * string) :=
  if hasSeparator pattern
  then ("", Some (NewError "pattern contains path separator"), d)
  else (("/tmp/" ++ pattern)%string, None, d).

(** A source server that answers every request with the given status, and
    the archive as body; the disk records what was unpacked where. *)
Definition sampleNet (code : Z) (status : string) : Fetch.Net (list (string * string)) :=
  {| Fetch.Getenv := fun _ => "";
     Fetch.TempDir := sampleTempDir;
     Fetch.NewRequest := fun _ => None;
     Fetch.Do := fun _ => ({| Fetch.StatusCode := code; Fetch.Status := status;
                              Fetch.Body := "archive" |}, None);
     Fetch.Untar := fun body dir d => ("extracted 3 files", None, d ++ [(body, dir)]);
     Fetch.ReadDir := fun _ _ => (["base"; "bootstrap"], None) |}.

(** The same server reached through the SOURCE_HOST override. *)
Definition localNet : Fetch.Net (list (string * string)) :=
  {| Fetch.Getenv := fun _ => "localhost:8080";
     Fetch.TempDir := sampleTempDir;
     Fetch.NewRequest := fun _ => None;
     Fetch.Do := fun _ => ({| Fetch.StatusCode := 200%Z; Fetch.Status := "200 OK";
                              Fetch.Body := "archive" |}, None);
     Fetch.Untar := fun body dir d => ("extracted 3 files", None, d ++ [(body, dir)]);
     Fetch.ReadDir := fun _ _ => (["base"; "bootstrap"], None) |}.

(** An executor whose first query fails. *)
Definition queryFailsApplier : LayerApplier :=
  {| PruneIsRequired := fun _ => (false, [], Some (NewError "list releases: forbidden"));
     Prune := fun _ _ => None;
     ApplyIsRequired := fun _ => (false, None);
     Apply := fun _ => None;
     ApplyWasSuccessful := fun _ => (true, None) |}.

(** A layer on a cluster whose version cannot be obtained, and a layer that is
    being pruned. *)
Definition unreachableLayer : KraanLayer :=
  CreateLayer (sampleClient (addonsLayer pendingLayer))
    {| ServerVersion := ("", Some (NewError "dial tcp: connection refused")) |}
    (addonsLayer pendingLayer).

Definition pruningLayer : KraanLayer :=
  sampleLayer "v1.18.0"
    (sampleAddons false "v1.17.0" [sampleCondition PruningCondition] PruningCondition).

(** A cluster on which the requested layer does not exist. *)
Definition absentReconciler : AddonsLayerReconciler :=
  {| rClient := {| List_ := ([], None);
                   Get := fun name =>
                     (layerNamed "" "", Some (NotFoundError ("addonslayers " ++ name ++ " not found")%string));
                   StatusUpdate_ := fun _ => None |};
     rk8client := sampleClientset "v1.18.0";
     Applier := quietApplier |}.

(** A change of another kind of object, the sample change under a wrong kind,
    a repository without artifact and the sample repository at another URL. *)
Definition foreignChange : Sync.MapObject :=
  {| Sync.objKind := kindOf "HelmRelease"; Sync.objRepository := None |}.

Definition mislabelledChange : Sync.MapObject :=
  {| Sync.objKind := kindOf "Bucket"; Sync.objRepository := Some sampleRepo |}.

Definition bareRepo : Sync.GitRepository :=
  {| Sync.repoName := "addons"; Sync.repoNamespace := "gitops";
     Sync.repoArtifact := None |}.

Definition movedRepo : Sync.GitRepository :=
  {| Sync.repoName := "addons"; Sync.repoNamespace := "gitops";
     Sync.repoArtifact := Some {| Sync.artURL := "http://elsewhere/addons.tar.gz";
                                  Sync.artRevision := "master/4d5e6f" |} |}.

(** ** Running computations *)

Lemma exec_bind {A B} (c : M A) (k : A -> M B) (s : Runtime) :
  exec (bind c k) s = exec (k (eval c s)) (exec c s).
Proof. unfold exec, eval, bind. destruct (c s). reflexivity. Qed.

Lemma eval_bind {A B} (c : M A) (k : A -> M B) (s : Runtime) :
  eval (bind c k) s = eval (k (eval c s)) (exec c s).
Proof. unfold exec, eval, bind. destruct (c s). reflexivity. Qed.

Ltac open_setters :=
  unfold SetStatusK8sVersion, SetStatusApplyPending, SetStatusApplying,
    SetStatusPrunePending, SetStatusPruned, SetStatusPruning, StatusUpdate.

(** ** Properties of the state holder *)

Section LayerFacts.

Context {texts : Texts}.
Variable w : World.

Lemma latest_snoc (cs : list Condition) (c : Condition) :
  latest (cs ++ [c]) = Some c.
Proof. unfold latest. rewrite rev_unit. reflexivity. Qed.

(** What one call of [setStatus] leaves behind. *)
Lemma setStatus_runs (status reason message : string) (s : Runtime) :
  setStatus w status reason message s =
  (tt, {| layer :=
            withRequeue true (withUpdated true
              (withStatus
                 {| stConditions :=
                      conditionsOf s ++
                      [ {| cType := status;
                           cVersion := specVersion (layerSpec (layer s));
                           cStatus := ConditionTrue;
                           cLastTransitionTime := Now w (clockReads s);
                           cReason := reason;
                           cMessage := message |} ];
                    stState := status;
                    stVersion := specVersion (layerSpec (layer s)) |}
                 (layer s)));
          clockReads := S (clockReads s);
          calls := calls s |}).
Proof. reflexivity. Qed.

Lemma setStatus_matches (status reason message : string) (s : Runtime) :
  exists c, latest (conditionsOf (exec (setStatus w status reason message) s)) = Some c
            /\ cType c = stateOf (exec (setStatus w status reason message) s).
Proof.
  unfold exec. rewrite setStatus_runs. cbn.
  eexists. split; [apply latest_snoc | reflexivity].
Qed.

Lemma setStatus_grows (status reason message : string) (s : Runtime) :
  length (conditionsOf (exec (setStatus w status reason message) s))
  = S (length (conditionsOf s)).
Proof.
  unfold exec. rewrite setStatus_runs. cbn.
  rewrite length_app. cbn. lia.
Qed.

Lemma setStatus_invariant (status reason message : string) (s : Runtime) :
  stateMatchesLatest (statusOf (exec (setStatus w status reason message) s)).
Proof.
  destruct (setStatus_matches status reason message s) as [c [Hl Hc]].
  unfold stateMatchesLatest. fold (conditionsOf (exec (setStatus w status reason message) s)).
  rewrite Hl. exact Hc.
Qed.

(** The flag setters leave the status alone. *)
Lemma modifyLayer_status (f : KraanLayer -> KraanLayer) (s : Runtime) :
  (forall l, layerStatus (f l) = layerStatus l) ->
  statusOf (exec (modifyLayer f) s) = statusOf s.
Proof. intros H. unfold statusOf, exec, modifyLayer. cbn. apply H. Qed.

Lemma flag_keeps_invariant (f : KraanLayer -> KraanLayer) (s : Runtime) :
  (forall l, layerStatus (f l) = layerStatus l) ->
  stateMatchesLatest (statusOf s) ->
  stateMatchesLatest (statusOf (exec (modifyLayer f) s)).
Proof. intros H Inv. rewrite modifyLayer_status by exact H. exact Inv. Qed.

Lemma SetDelayedRequeue_status (s : Runtime) :
  statusOf (exec SetDelayedRequeue s) = statusOf s.
Proof. reflexivity. Qed.

Lemma SetStatusDeployed_invariant (s : Runtime) :
  stateMatchesLatest (statusOf s) ->
  stateMatchesLatest (statusOf (exec (SetStatusDeployed w) s)).
Proof.
  intros Inv. unfold SetStatusDeployed. rewrite exec_bind.
  destruct (negb (eval GetStatus s =? DeployedCondition)).
  - apply setStatus_invariant.
  - exact Inv.
Qed.

Lemma SetStatusPruningToPruned_invariant (s : Runtime) :
  stateMatchesLatest (statusOf s) ->
  stateMatchesLatest (statusOf (exec (SetStatusPruningToPruned w) s)).
Proof.
  intros Inv. unfold SetStatusPruningToPruned. rewrite !exec_bind.
  match goal with |- context [if ?b then _ else _] => destruct b end.
  - unfold SetStatusPruned. apply setStatus_invariant.
  - exact Inv.
Qed.

Lemma SetHold_invariant (s : Runtime) :
  stateMatchesLatest (statusOf s) ->
  stateMatchesLatest (statusOf (exec (SetHold w) s)).
Proof.
  intros Inv. unfold SetHold. rewrite !exec_bind.
  match goal with |- context [if ?b then _ else _] => destruct b end.
  - unfold StatusUpdate. rewrite exec_bind.
    apply flag_keeps_invariant; [reflexivity | apply setStatus_invariant].
  - exact Inv.
Qed.

Lemma CheckK8sVersion_invariant (s : Runtime) :
  stateMatchesLatest (statusOf s) ->
  stateMatchesLatest (statusOf (exec (CheckK8sVersion w) s)).
Proof.
  intros Inv. unfold CheckK8sVersion. rewrite !exec_bind.
  destruct (ServerVersion _) as [versionInfo [e|]].
  - rewrite !exec_bind. unfold StatusUpdate.
    change (exec (ret false) ?x) with x.
    unfold SetDelayed.
    apply flag_keeps_invariant; [reflexivity | apply setStatus_invariant].
  - exact Inv.
Qed.

(** C7: an operation that goes through [setStatus] leaves the state equal to
    the type of the condition it has just appended, and every operation of the
    layer keeps the state equal to the type of the most recently appended
    condition. *)
Theorem state_is_latest_condition_type (op : LayerOp) (s : Runtime) :
  (isTransition op = true ->
     exists c, latest (conditionsOf (exec (runOp w op) s)) = Some c
               /\ cType c = stateOf (exec (runOp w op) s))
  /\ (stateMatchesLatest (statusOf s) ->
      stateMatchesLatest (statusOf (exec (runOp w op) s))).
Proof.
  split.
  - destruct op; cbn [isTransition]; intros H; try discriminate H;
      cbn [runOp]; open_setters; apply setStatus_matches.
  - intros Inv. destruct op; cbn [runOp]; open_setters.
    + unfold SetRequeue. apply flag_keeps_invariant; [reflexivity | exact Inv].
    + unfold SetUpdated. apply flag_keeps_invariant; [reflexivity | exact Inv].
    + unfold SetDelayed. apply flag_keeps_invariant; [reflexivity | exact Inv].
    + rewrite SetDelayedRequeue_status. exact Inv.
    + apply setStatus_invariant.
    + apply SetStatusDeployed_invariant, Inv.
    + apply setStatus_invariant.
    + apply setStatus_invariant.
    + apply setStatus_invariant.
    + apply setStatus_invariant.
    + apply setStatus_invariant.
    + apply SetStatusPruningToPruned_invariant, Inv.
    + apply setStatus_invariant.
    + apply SetHold_invariant, Inv.
    + rewrite exec_bind. change (exec (ret tt) ?x) with x.
      apply CheckK8sVersion_invariant, Inv.
Qed.

Lemma SetStatusDeployed_when_deployed (s : Runtime) :
  stateOf s = DeployedCondition -> SetStatusDeployed w s = (tt, s).
Proof.
  intros H. unfold stateOf, statusOf in H.
  unfold SetStatusDeployed, GetStatus. unfold bind, getLayer, ret. cbv beta iota.
  rewrite H. reflexivity.
Qed.

Lemma SetStatusDeployed_when_not (s : Runtime) :
  stateOf s <> DeployedCondition ->
  SetStatusDeployed w s = setStatus w DeployedCondition AddonsLayerDeployedReason "" s.
Proof.
  intros H. unfold stateOf, statusOf in H.
  unfold SetStatusDeployed, GetStatus. unfold bind, getLayer, ret. cbv beta iota.
  apply String.eqb_neq in H. rewrite H. reflexivity.
Qed.

(** C9: marking a layer deployed twice in a row leaves what the first call
    left; the two calls together append exactly one condition, of type
    Deployed, when the layer was not Deployed before, and nothing changes when
    it already was. *)
Theorem mark_deployed_idempotent (s : Runtime) :
  exec (SetStatusDeployed w) (exec (SetStatusDeployed w) s) = exec (SetStatusDeployed w) s
  /\ (stateOf s <> DeployedCondition ->
      exists c, cType c = DeployedCondition
        /\ conditionsOf (exec (SetStatusDeployed w) (exec (SetStatusDeployed w) s))
           = conditionsOf s ++ [c])
  /\ (stateOf s = DeployedCondition -> exec (SetStatusDeployed w) s = s).
Proof.
  assert (Hd : stateOf s = DeployedCondition -> exec (SetStatusDeployed w) s = s).
  { intros H. unfold exec. rewrite SetStatusDeployed_when_deployed by exact H. reflexivity. }
  assert (Hn : stateOf s <> DeployedCondition ->
               stateOf (exec (SetStatusDeployed w) s) = DeployedCondition
               /\ exists c, cType c = DeployedCondition
                    /\ conditionsOf (exec (SetStatusDeployed w) s) = conditionsOf s ++ [c]).
  { intros H. unfold exec at 1 2. rewrite SetStatusDeployed_when_not by exact H.
    rewrite setStatus_runs. cbn. split; [reflexivity|].
    eexists. split; [|reflexivity]. reflexivity. }
  destruct (string_dec (stateOf s) DeployedCondition) as [E|E].
  - split; [|split].
    + rewrite (Hd E). apply Hd, E.
    + intros C. contradiction.
    + exact Hd.
  - destruct (Hn E) as [Hs [c [Hc Hcs]]].
    assert (H2 : exec (SetStatusDeployed w) (exec (SetStatusDeployed w) s)
                 = exec (SetStatusDeployed w) s).
    { unfold exec at 1. rewrite SetStatusDeployed_when_deployed by exact Hs. reflexivity. }
    split; [exact H2|split].
    + intros _. exists c. split; [exact Hc|]. rewrite H2. exact Hcs.
    + exact Hd.
Qed.

End LayerFacts.

(** ** Properties of one pass *)

Ltac open_pass :=
  unfold reconcileLayer, processAddonLayer, processPrune, processApply, checkSuccess,
    updateRequeue, update,
    SetHold, CheckK8sVersion, SetStatusK8sVersion, SetStatusDeployed, SetStatusPruning,
    SetStatusApplying, StatusUpdate, setStatus, SetDelayedRequeue, SetDelayed,
    IsHold, GetStatus, getK8sClient, GetRequiredK8sVersion, IsUpdated, IsDelayed,
    NeedsRequeue, GetDelay, GetAddonsLayer,
    readClock, modifyLayer, emit, getLayer, bind, ret, exec, eval, startOf.

(** Case analysis on every answer the pass branches on. *)
Ltac split_cases :=
  repeat (cbn in *;
          match goal with
          | |- context [match ?x with _ => _ end] =>
              match x with
              | context [match _ with _ => _ end] => fail 1
              | _ => destruct x eqn:?
              end
          | H : context [match ?x with _ => _ end] |- _ =>
              match x with
              | context [match _ with _ => _ end] => fail 1
              | _ => destruct x eqn:?
              end
          end).

Section PassFacts.

Context {texts : Texts}.
Variable w : World.
Variable r : AddonsLayerReconciler.

(** C1: in one pass at most one of the executor calls Prune and Apply is
    issued, and a pass that calls Prune never reaches the apply branch. *)
Theorem at_most_one_mutation (l : KraanLayer) :
  (mutations (calls (exec (reconcileLayer w r) (startOf l))) <= 1)%nat
  /\ existsb isPrune (calls (exec (reconcileLayer w r) (startOf l)))
     && existsb reachesApply (calls (exec (reconcileLayer w r) (startOf l))) = false.
Proof.
  open_pass. split_cases; cbn; split; solve [reflexivity | auto with arith].
Qed.

(** C3: when a pass asks ApplyIsRequired, the answer is true and the resolver
    reports a dependency that is not deployed, Apply is not called, the status
    of the layer is what it was, and the pass ends marked for a delayed
    requeue after the layer's interval. *)
Theorem unsatisfied_dependency_blocks_apply (l : KraanLayer) :
  In CallApplyIsRequired (calls (exec (reconcileLayer w r) (startOf l))) ->
  ApplyIsRequired (Applier r) l = (true, None) ->
  Resolver w l = false ->
  existsb isApply (calls (exec (reconcileLayer w r) (startOf l))) = false
  /\ statusOf (exec (reconcileLayer w r) (startOf l)) = layerStatus l
  /\ delayed (layer (exec (reconcileLayer w r) (startOf l))) = true
  /\ requeue (layer (exec (reconcileLayer w r) (startOf l))) = true
  /\ fst (eval (reconcileLayer w r) (startOf l))
     = {| Requeue := true; RequeueAfter := delay l |}.
Proof.
  unfold statusOf. open_pass. intros Hreach Hreq Hdeps. split_cases; cbn in *.
  all: try (exfalso; clear - Hreach; intuition discriminate).
  all: try congruence.
  all: try (rewrite Hdeps in *; discriminate).
  all: repeat split.
Qed.

(** C4: a pass over a layer whose hold flag is set ends with the layer in the
    Hold state, appends no condition when the layer was in Hold already, and
    makes no executor call. *)
Theorem held_layer_stays_on_hold (l : KraanLayer) :
  specHold (layerSpec l) = true ->
  stateOf (exec (reconcileLayer w r) (startOf l)) = HoldCondition
  /\ (stState (layerStatus l) = HoldCondition ->
      conditionsOf (exec (reconcileLayer w r) (startOf l)) = stConditions (layerStatus l))
  /\ existsb isExecutorCall (calls (exec (reconcileLayer w r) (startOf l))) = false.
Proof.
  unfold stateOf, conditionsOf, statusOf. open_pass. intros Hhold.
  split_cases; cbn in *; try congruence.
  all: match goal with
       | Hh : specHold _ = true, H : context [negb (_ =? HoldCondition)] |- _ =>
           rewrite Hh in H; cbn in H;
           first [ apply negb_true_iff in H; apply String.eqb_neq in H
                 | apply negb_false_iff in H; apply String.eqb_eq in H ]
       end.
  all: repeat split; auto; try (intros C; contradiction).
Qed.

(** C10: a call of [setStatus] sets the updated and the requeue flag, records
    the desired version of the descriptor in the appended condition and as the
    observed version of the status; and a pass that ends with another status
    than it started with has written the layer back and asks for a requeue. *)
Theorem status_transition_marks_session
    (status reason message : string) (s : Runtime) (l : KraanLayer) :
  (updated (layer (exec (setStatus w status reason message) s)) = true
   /\ requeue (layer (exec (setStatus w status reason message) s)) = true
   /\ stVersion (statusOf (exec (setStatus w status reason message) s))
      = specVersion (layerSpec (layer s))
   /\ exists c, latest (conditionsOf (exec (setStatus w status reason message) s)) = Some c
        /\ cType c = status /\ cVersion c = specVersion (layerSpec (layer s)))
  /\ (statusOf (exec (reconcileLayer w r) (startOf l)) <> layerStatus l ->
      Requeue (fst (eval (reconcileLayer w r) (startOf l))) = true
      /\ In (CallStatusUpdate (addonsLayer (layer (exec (reconcileLayer w r) (startOf l)))))
            (calls (exec (reconcileLayer w r) (startOf l)))).
Proof.
  split.
  - unfold exec. rewrite setStatus_runs. cbn.
    repeat split. eexists. split; [apply latest_snoc|]. split; reflexivity.
  - unfold statusOf. open_pass. intros Hch. split_cases; cbn in *.
    all: try (exfalso; apply Hch; reflexivity).
    all: split; [reflexivity|].
    all: rewrite ?in_app_iff; cbn; auto 10.
Qed.

End PassFacts.

(** ** The pass at sample inputs *)

Lemma state_is_latest_condition_type_witness :
  isTransition OpSetStatusApplying = true
  /\ stateMatchesLatest (statusOf (startOf pendingLayer))
  /\ (exists c,
        latest (conditionsOf (exec (runOp (texts:=sampleTexts) sampleWorld OpSetStatusApplying)
                                   (startOf pendingLayer))) = Some c
        /\ cType c = stateOf (exec (runOp (texts:=sampleTexts) sampleWorld OpSetStatusApplying)
                                   (startOf pendingLayer)))
  /\ stateMatchesLatest
       (statusOf (exec (runOp (texts:=sampleTexts) sampleWorld OpSetStatusApplying)
                       (startOf pendingLayer))).
Proof.
  split; [reflexivity|]. split; [reflexivity|].
  destruct (@state_is_latest_condition_type sampleTexts sampleWorld
              OpSetStatusApplying (startOf pendingLayer)) as [H1 H2].
  split; [apply H1; reflexivity | apply H2; reflexivity].
Defined.

Lemma mark_deployed_idempotent_witness :
  stateOf (startOf pendingLayer) <> DeployedCondition
  /\ exists c, cType c = DeployedCondition
       /\ conditionsOf (exec (SetStatusDeployed (texts:=sampleTexts) sampleWorld)
                          (exec (SetStatusDeployed (texts:=sampleTexts) sampleWorld)
                                (startOf pendingLayer)))
          = conditionsOf (startOf pendingLayer) ++ [c].
Proof.
  assert (H : stateOf (startOf pendingLayer) <> DeployedCondition) by (cbn; discriminate).
  split; [exact H|].
  exact (proj1 (proj2 (@mark_deployed_idempotent sampleTexts sampleWorld
                         (startOf pendingLayer))) H).
Defined.

Lemma unsatisfied_dependency_blocks_apply_witness :
  existsb isApply
    (calls (exec (reconcileLayer (texts:=sampleTexts) sampleWorld
                    (sampleReconciler applyFailsApplier "v1.18.0" (addonsLayer pendingLayer)))
                 (startOf pendingLayer))) = false
  /\ statusOf (exec (reconcileLayer (texts:=sampleTexts) sampleWorld
                    (sampleReconciler applyFailsApplier "v1.18.0" (addonsLayer pendingLayer)))
                 (startOf pendingLayer)) = layerStatus pendingLayer.
Proof.
  destruct (@unsatisfied_dependency_blocks_apply sampleTexts sampleWorld
              (sampleReconciler applyFailsApplier "v1.18.0" (addonsLayer pendingLayer))
              pendingLayer) as [H1 [H2 _]].
  - vm_compute. auto.
  - reflexivity.
  - reflexivity.
  - split; [exact H1 | exact H2].
Defined.

Lemma held_layer_stays_on_hold_witness :
  specHold (layerSpec heldLayer) = true
  /\ stateOf (exec (reconcileLayer (texts:=sampleTexts) sampleWorld
                      (sampleReconciler pruneFailsApplier "v1.18.0" (addonsLayer heldLayer)))
                   (startOf heldLayer)) = HoldCondition.
Proof.
  split; [reflexivity|].
  apply (@held_layer_stays_on_hold sampleTexts sampleWorld
           (sampleReconciler pruneFailsApplier "v1.18.0" (addonsLayer heldLayer)) heldLayer).
  reflexivity.
Defined.

Lemma status_transition_marks_session_witness :
  statusOf (exec (reconcileLayer (texts:=sampleTexts) sampleWorld
                    (sampleReconciler pruneFailsApplier "v1.18.0" (addonsLayer pendingLayer)))
                 (startOf pendingLayer)) <> layerStatus pendingLayer
  /\ Requeue (fst (eval (reconcileLayer (texts:=sampleTexts) sampleWorld
                    (sampleReconciler pruneFailsApplier "v1.18.0" (addonsLayer pendingLayer)))
                 (startOf pendingLayer))) = true.
Proof.
  assert (H : statusOf (exec (reconcileLayer (texts:=sampleTexts) sampleWorld
                    (sampleReconciler pruneFailsApplier "v1.18.0" (addonsLayer pendingLayer)))
                 (startOf pendingLayer)) <> layerStatus pendingLayer)
    by (vm_compute; discriminate).
  split; [exact H|].
  exact (proj1 (proj2 (@status_transition_marks_session sampleTexts sampleWorld
                         (sampleReconciler pruneFailsApplier "v1.18.0" (addonsLayer pendingLayer))
                         "" "" "" (startOf pendingLayer) pendingLayer) H)).
Defined.

(** C2: at an executor whose Prune fails, the pass does not end in Failed:
    the error is dropped, the layer stays in Pruning with one more condition,
    and the requeue is delayed by the interval. *)
Theorem prune_error_is_dropped :
  fst prunePass = ({| Requeue := true; RequeueAfter := 60%Z |}, None)
  /\ option_map stateOf (snd prunePass) = Some PruningCondition
  /\ option_map (fun s => map cType (conditionsOf s)) (snd prunePass)
     = Some [ApplyPendingCondition; PruningCondition]
  /\ option_map (fun s => existsb isPrune (calls s)) (snd prunePass) = Some true
  /\ option_map (fun s => delayed (layer s)) (snd prunePass) = Some true.
Proof. vm_compute. repeat split. Qed.

(** The same slip in the apply branch, at a resolver that reports every
    dependency deployed. *)
Lemma apply_error_is_dropped :
  fst applyPass = ({| Requeue := true; RequeueAfter := 60%Z |}, None)
  /\ option_map stateOf (snd applyPass) = Some ApplyingCondition
  /\ option_map (fun s => map cType (conditionsOf s)) (snd applyPass)
     = Some [ApplyPendingCondition; ApplyingCondition]
  /\ option_map (fun s => existsb isApply (calls s)) (snd applyPass) = Some true.
Proof. vm_compute. repeat split. Qed.

(** C5: a cluster that runs exactly the required version is held back:
    the pass ends in WaitingForClusterVersion with a delayed requeue and asks
    the executor nothing. *)
Theorem equal_version_is_gated :
  fst exactPass = ({| Requeue := true; RequeueAfter := 60%Z |}, None)
  /\ option_map stateOf (snd exactPass) = Some K8sVersionCondition
  /\ option_map (fun s => existsb isExecutorCall (calls s)) (snd exactPass) = Some false.
Proof. vm_compute. repeat split. Qed.

(** C6: a transition on a layer that already holds [MaxConditions] conditions
    leaves one more than the maximum; nothing is evicted. *)
Theorem condition_history_exceeds_maximum :
  length (conditionsOf (startOf fullLayer)) = MaxConditions
  /\ length (conditionsOf (exec (SetStatusApplying (texts:=sampleTexts) sampleWorld)
                                (startOf fullLayer))) = S MaxConditions
  /\ firstn MaxConditions
       (conditionsOf (exec (SetStatusApplying (texts:=sampleTexts) sampleWorld)
                           (startOf fullLayer)))
     = conditionsOf (startOf fullLayer).
Proof. vm_compute. repeat split. Qed.

(** ** Properties of the loop over the layers of a source change *)

Section SyncFacts.

Import Sync Mapper.

Variable Disk : Type.
Variable h : Host Disk.

(** The loop on its own: it returns the requests of the layers that reference
    the repository when every link succeeds, and exits the process at the
    first link that fails. *)

Lemma linkLayers_all_linked (repo : GitRepository) (dataPath : string)
    (items : list AddonsLayer) :
  forall (addons : list Request) (d d2 : Disk) (log : list LogEntry),
    linksSucceed h dataPath items d = Some d2 ->
    exists log',
      linkLayers h repo dataPath items addons d log
      = (Returned (addons ++ map (requestFor) (filter (references repo) items)), d2, log').
Proof.
  induction items as [|addon rest IH]; intros addons d d2 log H; cbn in *.
  - inversion H; subst. rewrite app_nil_r. eexists. reflexivity.
  - destruct (Link h _ _ d) as [[e|] d'].
    + discriminate H.
    + destruct (IH (if references repo addon then addons ++ [requestFor addon] else addons)
                   d' d2 (log ++ [LogInfo "adding layer to list" "layer" (metaName addon)]) H)
        as [log' E].
      exists log'. rewrite E.
      destruct (references repo addon); cbn.
      * rewrite <- app_assoc. reflexivity.
      * reflexivity.
Qed.

Lemma linkLayers_first_failure (repo : GitRepository) (dataPath : string)
    (pre : list AddonsLayer) (addon : AddonsLayer) (post : list AddonsLayer)
    (e : error) (d2 d3 : Disk) :
  Link h (GetSourcePath h addon)
       (dataPath ++ "/" ++ srcPath (specSource (Spec addon)))%string d2 = (Some e, d3) ->
  forall (addons : list Request) (d : Disk) (log : list LogEntry),
    linksSucceed h dataPath pre d = Some d2 ->
    exists log',
      linkLayers h repo dataPath (pre ++ addon :: post) addons d log
      = (Exited 1%Z, d3,
         log' ++ [LogError (Error e)
                    ("unable link to new data for addonsLayers: " ++ metaName addon)%string]).
Proof.
  intros Hfail. induction pre as [|a rest IH]; intros addons d log H; cbn in *.
  - inversion H; subst. rewrite Hfail. eexists. reflexivity.
  - destruct (Link h _ _ d) as [[e'|] d'].
    + discriminate H.
    + apply IH. exact H.
Qed.

End SyncFacts.


(** ** Further properties of one pass *)

Lemma string_compare_refl (s : string) : String.compare s s = Eq.
Proof.
  pose proof (String.compare_antisym s s) as H.
  destruct (String.compare s s); [reflexivity | discriminate H | discriminate H].
Qed.

Lemma string_gtb_irrefl (v : string) : string_gtb v v = false.
Proof. unfold string_gtb, String.ltb. rewrite string_compare_refl. reflexivity. Qed.

Lemma string_gtb_false_iff (v required : string) :
  string_gtb v required = false <-> v = required \/ String.ltb v required = true.
Proof.
  unfold string_gtb, String.ltb. rewrite (String.compare_antisym v required).
  destruct (String.compare required v) eqn:E; cbn; split; intros H; auto.
  - left. symmetry. apply String.compare_eq_iff, E.
  - destruct H as [H|H]; [|discriminate H].
    subst. rewrite string_compare_refl in E. discriminate E.
Qed.

Ltac settle_eqb :=
  repeat match goal with
         | Hh : specHold _ = _, H : context [specHold _ && _] |- _ =>
             rewrite Hh in H; cbn in H
         end;
  repeat match goal with
         | H : negb (_ =? _) = true |- _ =>
             apply negb_true_iff in H; apply String.eqb_neq in H
         | H : negb (_ =? _) = false |- _ =>
             apply negb_false_iff in H; apply String.eqb_eq in H
         end.

Section PassExtras.

Context {texts : Texts}.
Variable w : World.
Variable r : AddonsLayerReconciler.

(** X1: the executor calls of a pass, in order, are one of six sequences:
    none; PruneIsRequired alone; PruneIsRequired then Prune, with the releases
    PruneIsRequired returned; PruneIsRequired then ApplyIsRequired, alone or
    followed by exactly one of Apply and ApplyWasSuccessful. *)
Theorem executor_calls_follow_the_steps (l : KraanLayer) :
  In (filter isExecutorCall (calls (exec (reconcileLayer w r) (startOf l))))
     [ [];
       [CallPruneIsRequired];
       [CallPruneIsRequired; CallPrune (snd (fst (PruneIsRequired (Applier r) l)))];
       [CallPruneIsRequired; CallApplyIsRequired];
       [CallPruneIsRequired; CallApplyIsRequired; CallApply];
       [CallPruneIsRequired; CallApplyIsRequired; CallApplyWasSuccessful] ].
Proof.
  open_pass. split_cases; cbn.
  all: repeat match goal with H : _ = _ |- _ => rewrite H end; cbn.
  all: auto 10.
Qed.

(** X2: a pass that calls Prune or Apply ends in Pruning or Applying, asks for
    a requeue after the interval of the layer whatever the call returned, and
    issues nothing after the call but the write-back of the status. *)
Theorem mutation_ends_the_pass (l : KraanLayer) :
  existsb isMutation (calls (exec (reconcileLayer w r) (startOf l))) = true ->
  fst (eval (reconcileLayer w r) (startOf l))
    = {| Requeue := true; RequeueAfter := delay l |}
  /\ (stateOf (exec (reconcileLayer w r) (startOf l)) = PruningCondition
      \/ stateOf (exec (reconcileLayer w r) (startOf l)) = ApplyingCondition)
  /\ exists pre m,
       calls (exec (reconcileLayer w r) (startOf l))
         = pre ++ [m; CallStatusUpdate (addonsLayer (layer (exec (reconcileLayer w r) (startOf l))))]
       /\ isMutation m = true
       /\ existsb isMutation pre = false.
Proof.
  intros H. split; [|split].
  3: exists (removelast (removelast (calls (exec (reconcileLayer w r) (startOf l))))),
            (last (removelast (calls (exec (reconcileLayer w r) (startOf l)))) CallList).
  all: revert H; unfold stateOf, statusOf; open_pass; intros H; split_cases; cbn in *.
  all: try discriminate H.
  all: auto.
Qed.

(** X3: when [processAddonLayer] returns an error (that of PruneIsRequired,
    ApplyIsRequired or ApplyWasSuccessful), the pass appends one Failed
    condition carrying the text of the error, asks for an immediate requeue
    and has called neither Prune nor Apply. *)
Theorem query_error_fails_layer (l : KraanLayer) (e : error) :
  delayed l = false ->
  eval (processAddonLayer w r) (startOf l) = Some e ->
  stateOf (exec (reconcileLayer w r) (startOf l)) = FailedCondition
  /\ (exists c,
        conditionsOf (exec (reconcileLayer w r) (startOf l))
          = stConditions (layerStatus l) ++ [c]
        /\ cType c = FailedCondition
        /\ cReason c = AddonsLayerFailedReason
        /\ cMessage c = Error e)
  /\ fst (eval (reconcileLayer w r) (startOf l))
     = {| Requeue := true; RequeueAfter := 0%Z |}
  /\ mutations (calls (exec (reconcileLayer w r) (startOf l))) = 0.
Proof.
  unfold stateOf, conditionsOf, statusOf, mutations. open_pass. intros Hd He.
  split_cases; cbn in *.
  all: try discriminate.
  all: inversion He; subst.
  all: repeat split; eexists; split; [reflexivity|]; repeat split.
Qed.

(** X4: with the server version obtained, a layer not on hold waits for the
    cluster version whenever that version equals the required one or sorts
    before it byte-wise, and goes on to ask PruneIsRequired whenever the
    required version sorts strictly before it. *)
Theorem version_gate_is_strict (l : KraanLayer) (v : string) :
  specHold (layerSpec l) = false ->
  ServerVersion (k8client l) = (v, None) ->
  (v = specK8sVersion (layerSpec l) \/ String.ltb v (specK8sVersion (layerSpec l)) = true ->
     stateOf (exec (reconcileLayer w r) (startOf l)) = K8sVersionCondition
     /\ fst (eval (reconcileLayer w r) (startOf l))
        = {| Requeue := true; RequeueAfter := delay l |}
     /\ existsb isExecutorCall (calls (exec (reconcileLayer w r) (startOf l))) = false)
  /\ (String.ltb (specK8sVersion (layerSpec l)) v = true ->
        In CallPruneIsRequired (calls (exec (reconcileLayer w r) (startOf l)))).
Proof.
  intros Hh Hv. rewrite <- string_gtb_false_iff.
  change (String.ltb (specK8sVersion (layerSpec l)) v)
    with (string_gtb v (specK8sVersion (layerSpec l))).
  revert Hh Hv. unfold stateOf, statusOf. open_pass. intros Hh Hv.
  split; intros Hg; split_cases; cbn in *.
  all: try congruence.
  all: inversion Hv; subst.
  all: try (rewrite Hg in *; cbn in *; congruence).
  all: repeat split; auto 10.
Qed.

(** X5: when the server version cannot be obtained the pass appends two
    conditions, one that repeats the current state with the text of the error
    and one for WaitingForClusterVersion, ends with a requeue after the
    interval and asks the executor nothing. *)
Theorem version_lookup_failure_waits (l : KraanLayer) (v : string) (e : error) :
  specHold (layerSpec l) = false ->
  ServerVersion (k8client l) = (v, Some e) ->
  (exists c1 c2,
      conditionsOf (exec (reconcileLayer w r) (startOf l))
        = stConditions (layerStatus l) ++ [c1; c2]
      /\ cType c1 = stState (layerStatus l)
      /\ cReason c1 = "failed to obtain cluster api server version"
      /\ cMessage c1 = Error e
      /\ cType c2 = K8sVersionCondition)
  /\ stateOf (exec (reconcileLayer w r) (startOf l)) = K8sVersionCondition
  /\ fst (eval (reconcileLayer w r) (startOf l))
     = {| Requeue := true; RequeueAfter := delay l |}
  /\ existsb isExecutorCall (calls (exec (reconcileLayer w r) (startOf l))) = false.
Proof.
  unfold stateOf, conditionsOf, statusOf. open_pass. intros Hh Hv.
  split_cases; cbn in *.
  all: try congruence.
  all: inversion Hv; subst.
  all: rewrite <- app_assoc; cbn.
  all: split; [do 2 eexists; split; [reflexivity|]; repeat split | repeat split].
Qed.

(** X6: a fresh session on a layer past the version check with nothing to
    prune or apply and a successful apply: if the layer is Deployed already the pass
    changes nothing, writes nothing and schedules nothing; otherwise it
    appends one Deployed condition, writes the status back and asks for an
    immediate requeue. *)
Theorem ready_layer_becomes_deployed_then_rests
    (l : KraanLayer) (v : string) (hrs : list HelmRelease) :
  updated l = false -> requeue l = false -> delayed l = false ->
  specHold (layerSpec l) = false ->
  ServerVersion (k8client l) = (v, None) ->
  string_gtb v (specK8sVersion (layerSpec l)) = true ->
  PruneIsRequired (Applier r) l = (false, hrs, None) ->
  ApplyIsRequired (Applier r) l = (false, None) ->
  ApplyWasSuccessful (Applier r) l = (true, None) ->
  (stState (layerStatus l) = DeployedCondition ->
     eval (reconcileLayer w r) (startOf l) = (emptyResult, None)
     /\ statusOf (exec (reconcileLayer w r) (startOf l)) = layerStatus l
     /\ calls (exec (reconcileLayer w r) (startOf l))
        = [CallServerVersion; CallPruneIsRequired; CallApplyIsRequired;
           CallApplyWasSuccessful])
  /\ (stState (layerStatus l) <> DeployedCondition ->
        map cType (conditionsOf (exec (reconcileLayer w r) (startOf l)))
          = map cType (stConditions (layerStatus l)) ++ [DeployedCondition]
        /\ stateOf (exec (reconcileLayer w r) (startOf l)) = DeployedCondition
        /\ fst (eval (reconcileLayer w r) (startOf l))
           = {| Requeue := true; RequeueAfter := 0%Z |}
        /\ existsb isStatusUpdate (calls (exec (reconcileLayer w r) (startOf l))) = true).
Proof.
  intros Hu Hr Hdl Hh Hv Hg Hp Ha Hs. unfold stateOf, conditionsOf, statusOf.
  open_pass. split; intros Hd; split_cases; cbn in *.
  all: try congruence.
  all: inversion Hv; subst.
  all: try (rewrite Hg in *; discriminate).
  all: settle_eqb.
  all: try (exfalso; match goal with H : ?x <> ?y, H' : ?x = ?y |- _ => exact (H H') end).
  all: rewrite ?map_app; repeat split.
Qed.

(** X7: a fresh session on a held layer: if the layer is in Hold already the
    pass makes no call at all and schedules nothing; otherwise it appends one
    Hold condition, its only call is the write-back of the status, and it asks
    for an immediate requeue. *)
Theorem held_layer_rests_after_first_pass (l : KraanLayer) :
  updated l = false -> requeue l = false -> delayed l = false ->
  specHold (layerSpec l) = true ->
  (stState (layerStatus l) = HoldCondition ->
     eval (reconcileLayer w r) (startOf l) = (emptyResult, None)
     /\ statusOf (exec (reconcileLayer w r) (startOf l)) = layerStatus l
     /\ calls (exec (reconcileLayer w r) (startOf l)) = [])
  /\ (stState (layerStatus l) <> HoldCondition ->
        fst (eval (reconcileLayer w r) (startOf l))
          = {| Requeue := true; RequeueAfter := 0%Z |}
        /\ calls (exec (reconcileLayer w r) (startOf l))
           = [CallStatusUpdate (addonsLayer (layer (exec (reconcileLayer w r) (startOf l))))]
        /\ map cType (conditionsOf (exec (reconcileLayer w r) (startOf l)))
           = map cType (stConditions (layerStatus l)) ++ [HoldCondition]).
Proof.
  intros Hu Hr Hdl Hh. unfold conditionsOf, statusOf.
  open_pass. split; intros Hd; split_cases; cbn in *.
  all: try congruence.
  all: settle_eqb.
  all: try (exfalso; match goal with H : ?x <> ?y, H' : ?x = ?y |- _ => exact (H H') end).
  all: rewrite ?map_app; repeat split.
Qed.

(** X8: a pass never changes the descriptor, the name or the delay of the
    layer, only appends to the conditions (at most two, each with the desired
    version and status True), and never clears a session flag. *)
Theorem pass_keeps_descriptor_and_history (l : KraanLayer) :
  layerSpec (layer (exec (reconcileLayer w r) (startOf l))) = layerSpec l
  /\ metaName (addonsLayer (layer (exec (reconcileLayer w r) (startOf l))))
     = metaName (addonsLayer l)
  /\ delay (layer (exec (reconcileLayer w r) (startOf l))) = delay l
  /\ (exists added,
        conditionsOf (exec (reconcileLayer w r) (startOf l))
          = stConditions (layerStatus l) ++ added
        /\ (length added <= 2)%nat
        /\ Forall (fun c => cVersion c = specVersion (layerSpec l)
                            /\ cStatus c = ConditionTrue) added)
  /\ implb (updated l) (updated (layer (exec (reconcileLayer w r) (startOf l)))) = true
  /\ implb (requeue l) (requeue (layer (exec (reconcileLayer w r) (startOf l)))) = true
  /\ implb (delayed l) (delayed (layer (exec (reconcileLayer w r) (startOf l)))) = true.
Proof.
  unfold conditionsOf, statusOf. open_pass. split_cases; cbn in *.
  all: rewrite <- ?app_assoc; cbn.
  all: repeat match goal with |- _ /\ _ => split end.
  all: try reflexivity.
  all: try assumption.
  all: try (destruct (updated l); reflexivity).
  all: try (destruct (requeue l); reflexivity).
  all: try (destruct (delayed l); reflexivity).
  all: first [ exists []; split; [rewrite app_nil_r; reflexivity|];
               split; [cbn; lia | constructor]
             | eexists; split; [reflexivity|];
               split; [cbn; lia | repeat constructor] ].
Qed.

(** X9: the status is written back exactly when the updated flag is set at the
    end of the pass: then it is the last call, made once, with the final
    object, and its answer is the error of the pass; otherwise there is no
    write-back, no error, and the status is the one loaded. *)
Theorem status_written_back_once_and_last (l : KraanLayer) :
  (updated (layer (exec (reconcileLayer w r) (startOf l))) = true ->
     (exists pre,
        calls (exec (reconcileLayer w r) (startOf l))
          = pre ++ [CallStatusUpdate
                      (addonsLayer (layer (exec (reconcileLayer w r) (startOf l))))]
        /\ existsb isStatusUpdate pre = false)
     /\ snd (eval (reconcileLayer w r) (startOf l))
        = StatusUpdate_ (rClient r)
            (addonsLayer (layer (exec (reconcileLayer w r) (startOf l)))))
  /\ (updated (layer (exec (reconcileLayer w r) (startOf l))) = false ->
        existsb isStatusUpdate (calls (exec (reconcileLayer w r) (startOf l))) = false
        /\ snd (eval (reconcileLayer w r) (startOf l)) = None
        /\ statusOf (exec (reconcileLayer w r) (startOf l)) = layerStatus l).
Proof.
  split; intros H; [split; [exists (removelast (calls (exec (reconcileLayer w r) (startOf l))))|]|].
  all: revert H; unfold statusOf; open_pass; intros H; split_cases; cbn in *.
  all: try discriminate H.
  all: try congruence.
  all: repeat split.
Qed.

(** X10: a pass calls Apply only if the resolver reports the dependencies
    deployed, ApplyIsRequired answered true and PruneIsRequired answered
    false; the layer is then in Applying. *)
Theorem apply_needs_resolved_dependencies (l : KraanLayer) :
  existsb isApply (calls (exec (reconcileLayer w r) (startOf l))) = true ->
  Resolver w l = true
  /\ fst (ApplyIsRequired (Applier r) l) = true
  /\ fst (fst (PruneIsRequired (Applier r) l)) = false
  /\ stateOf (exec (reconcileLayer w r) (startOf l)) = ApplyingCondition.
Proof.
  unfold stateOf, statusOf. open_pass. intros H. split_cases; cbn in *.
  all: try discriminate H.
  all: repeat match goal with
              | E : negb _ = false |- _ => apply negb_false_iff in E
              | E : _ = _ |- _ => rewrite E
              end; cbn.
  all: repeat split.
Qed.

(** X14: a pass schedules nothing, an immediate requeue, or a requeue after
    exactly the delay of the layer. *)
Theorem pass_schedules_one_of_three (l : KraanLayer) :
  fst (eval (reconcileLayer w r) (startOf l)) = emptyResult
  \/ fst (eval (reconcileLayer w r) (startOf l)) = {| Requeue := true; RequeueAfter := 0%Z |}
  \/ fst (eval (reconcileLayer w r) (startOf l))
     = {| Requeue := true; RequeueAfter := delay l |}.
Proof.
  open_pass. split_cases; cbn; auto.
Qed.

(** X15: when the layer cannot be loaded no pass runs: an absent layer gives
    the empty result without error, any other failure of Get is returned as
    the error of Reconcile. *)
Theorem Reconcile_of_unloadable_layer (req : string) (a : AddonsLayer) (e : error) :
  Get (rClient r) req = (a, Some e) ->
  Reconcile w r req
  = (emptyResult, match e with NotFoundError _ => None | NewError _ => Some e end, None).
Proof.
  intros H. unfold Reconcile. rewrite H. destruct e; reflexivity.
Qed.

(** X12: SetHold twice is SetHold once; it does nothing without the hold flag,
    whatever the state, and leaves the state Hold with it. *)
Theorem SetHold_settles (s : Runtime) :
  exec (SetHold w) (exec (SetHold w) s) = exec (SetHold w) s
  /\ (specHold (layerSpec (layer s)) = false -> exec (SetHold w) s = s)
  /\ (specHold (layerSpec (layer s)) = true ->
      stateOf (exec (SetHold w) s) = HoldCondition).
Proof.
  unfold stateOf, statusOf, exec, SetHold, StatusUpdate, setStatus, IsHold, GetStatus.
  unfold readClock, modifyLayer, getLayer, bind, ret. unfold layerSpec, layerStatus. cbn.
  destruct (specHold (Spec (addonsLayer (layer s)))) eqn:Hh;
    destruct (stState (Status (addonsLayer (layer s))) =? HoldCondition) eqn:E; cbn.
  all: rewrite ?Hh, ?E; cbn.
  all: repeat split; intros; try discriminate.
  all: try (apply String.eqb_eq; assumption).
  all: try (destruct s; reflexivity).
Qed.

(** X13: SetStatusPruningToPruned twice is once; from Pruning or PrunePending
    it appends one Pruned condition, from any other state it does nothing. *)
Theorem SetStatusPruningToPruned_settles (s : Runtime) :
  exec (SetStatusPruningToPruned w) (exec (SetStatusPruningToPruned w) s)
    = exec (SetStatusPruningToPruned w) s
  /\ (stateOf s = PruningCondition \/ stateOf s = PrunePendingCondition ->
      stateOf (exec (SetStatusPruningToPruned w) s) = PrunedCondition
      /\ map cType (conditionsOf (exec (SetStatusPruningToPruned w) s))
         = map cType (conditionsOf s) ++ [PrunedCondition])
  /\ (stateOf s <> PruningCondition -> stateOf s <> PrunePendingCondition ->
      exec (SetStatusPruningToPruned w) s = s).
Proof.
  unfold stateOf, conditionsOf, statusOf, exec, SetStatusPruningToPruned, SetStatusPruned,
    setStatus, GetStatus.
  unfold readClock, modifyLayer, getLayer, bind, ret. unfold layerSpec, layerStatus. cbn.
  destruct (stState (Status (addonsLayer (layer s))) =? PruningCondition) eqn:E1;
    destruct (stState (Status (addonsLayer (layer s))) =? PrunePendingCondition) eqn:E2; cbn.
  all: rewrite ?E1, ?E2; cbn.
  all: split; [reflexivity | split].
  all: try (intros _; split; [reflexivity | rewrite map_app; reflexivity]).
  all: try (intros C1 C2; exfalso;
            first [ apply String.eqb_eq in E1; exact (C1 E1)
                  | apply String.eqb_eq in E2; exact (C2 E2) ]).
  - intros [C|C]; rewrite C in *; discriminate.
  - intros _ _. destruct s; reflexivity.
Qed.

End PassExtras.

(** X11: with the DependenciesDeployed of package layers, which always answers
    false, no pass calls Apply, whatever the executor and the cluster answer. *)
Theorem kraan_layer_never_applies {texts : Texts}
    (now : nat -> Time) (r : AddonsLayerReconciler) (l : KraanLayer) :
  existsb isApply
    (calls (exec (reconcileLayer {| Now := now; Resolver := kraanResolver |} r)
                 (startOf l))) = false.
Proof.
  open_pass. split_cases; cbn; solve [reflexivity | discriminate].
Qed.

(** ** Further properties of the mapping and of the fetch *)

Lemma hasSeparator_app (s1 s2 : string) :
  hasSeparator (s1 ++ s2) = hasSeparator s1 || hasSeparator s2.
Proof.
  induction s1 as [|c s1 IH]; cbn.
  - reflexivity.
  - rewrite IH. apply orb_assoc.
Qed.

Lemma SyncRepo_pattern_has_separator (name revision : string) :
  hasSeparator (name ++ "/" ++ revision ++ "-*") = true.
Proof. rewrite hasSeparator_app. cbn. apply orb_true_r. Qed.

Section SyncExtras.

Import Sync Mapper.

Variable Disk : Type.
Variable net : Fetch.Net Disk.
Variable h : Host Disk.
Variable r : AddonsLayerReconciler.

Lemma linkLayers_ignores_log (repo : GitRepository) (dataPath : string)
    (items : list AddonsLayer) :
  forall (addons : list Request) (d : Disk) (log log' : list LogEntry),
    fst (linkLayers h repo dataPath items addons d log)
    = fst (linkLayers h repo dataPath items addons d log').
Proof.
  induction items as [|addon rest IH]; intros addons d log log'; cbn.
  - reflexivity.
  - destruct (Link h _ _ d) as [[e|] d'].
    + reflexivity.
    + apply IH.
Qed.

(** X16: the mapping returns the empty batch and links nothing when the object
    is not a GitRepository (the disk is untouched), when SyncRepo fails, and
    when the layers cannot be listed. *)
Theorem mapping_gives_up_without_linking (a : MapObject) (d : Disk) :
  (objRepository a = None -> fst (repoMapperFunc net h r a d) = (Returned [], d))
  /\ (forall repo dataPath e d1,
        objRepository a = Some repo ->
        Fetch.SyncRepo net repo d = Fetch.Done (dataPath, Some e, d1) ->
        fst (repoMapperFunc net h r a d) = (Returned [], d1))
  /\ (forall repo dataPath d1 items e,
        objRepository a = Some repo ->
        Fetch.SyncRepo net repo d = Fetch.Done (dataPath, None, d1) ->
        List_ (rClient r) = (items, Some e) ->
        fst (repoMapperFunc net h r a d) = (Returned [], d1)).
Proof.
  unfold repoMapperFunc. repeat split.
  - intros H. rewrite H. reflexivity.
  - intros repo dataPath e d1 H1 H2. rewrite H1, H2. reflexivity.
  - intros repo dataPath d1 items e H1 H2 H3. rewrite H1, H2, H3. reflexivity.
Qed.

(** X17: the kind of the object only decides what is logged: two objects with
    the same repository behind them give the same outcome and the same disk. *)
Theorem kind_is_only_logged (a a' : MapObject) (d : Disk) :
  objRepository a = objRepository a' ->
  fst (repoMapperFunc net h r a d) = fst (repoMapperFunc net h r a' d).
Proof.
  intros H. unfold repoMapperFunc. rewrite H.
  destruct (objRepository a') as [repo|]; [|reflexivity].
  destruct (Fetch.SyncRepo net repo d) as [[[dataPath [e|]] d1]|reason];
    [reflexivity| |reflexivity].
  destruct (List_ (rClient r)) as [items [e|]]; [reflexivity|].
  apply linkLayers_ignores_log.
Qed.

(** X22: where [ioutil.TempDir] rejects a pattern that holds a path separator,
    the mapping of a repository with an artifact stops in SyncRepo, whose
    pattern is name/revision-*: it logs that failure and returns the empty
    batch with the disk as it was, whatever the listing of the layers holds
    and whatever os.Link would answer; for a repository without artifact it
    panics. *)
Theorem mapping_stops_in_SyncRepo (a : MapObject) (repo : GitRepository) (d : Disk) :
  objRepository a = Some repo ->
  (forall artifact,
      rejectsSeparators net ->
      repoArtifact repo = Some artifact ->
      exists e log,
        repoMapperFunc net h r a d
        = (Returned [], d,
           log ++ [LogError ("failed to create temp dir, error: " ++ Error e)%string
                            "unable to sync repository"]))
  /\ (repoArtifact repo = None ->
      exists reason, fst (repoMapperFunc net h r a d) = (Panicked reason, d)).
Proof.
  intros Hobj. unfold repoMapperFunc, Fetch.SyncRepo. rewrite Hobj. split.
  - intros artifact Hrej Hart. rewrite Hart.
    destruct (Hrej (repoName repo ++ "/" ++ artRevision artifact ++ "-*")%string d
                   (SyncRepo_pattern_has_separator _ _)) as [e He].
    rewrite He. exists e. eexists. reflexivity.
  - intros Hart. rewrite Hart. eexists. reflexivity.
Qed.

End SyncExtras.

Section FetchExtras.

Import Sync Fetch.

Variable Disk : Type.
Variable net : Net Disk.

(** X18: when the request is sent and answered with another status than 200,
    fetchArtifact returns the error naming that status and leaves the disk as
    it was. *)
Theorem fetch_unpacks_only_a_200 (repository : GitRepository) (artifact : Artifact)
    (dir : string) (d : Disk) (resp : Response) :
  repoArtifact repository = Some artifact ->
  Getenv net "SOURCE_HOST" = "" ->
  NewRequest net (artURL artifact) = None ->
  Do net (artURL artifact) = (resp, None) ->
  StatusCode resp <> StatusOK ->
  fetchArtifact net repository dir d
  = ("", Some (NewError ("faild to download artifact, status: " ++ Status resp)%string), d).
Proof.
  intros Ha He Hn Hd Hs. unfold fetchArtifact. rewrite Ha, He. cbn.
  rewrite Hn, Hd. apply Z.eqb_neq in Hs. rewrite Hs. reflexivity.
Qed.


(** X20: for a repository without artifact SyncRepo panics on its first
    statement, so the error fetchArtifact has for that case is never returned
    through SyncRepo. *)
Theorem SyncRepo_without_artifact_panics (repository : GitRepository) (dir : string)
    (d : Disk) :
  repoArtifact repository = None ->
  (exists reason, SyncRepo net repository d = Panicked reason)
  /\ fetchArtifact net repository dir d
     = ("", Some (NewError ("repository " ++ repoName repository
                              ++ " does not containt an artifact")%string), d).
Proof.
  intros H. unfold SyncRepo, fetchArtifact. rewrite H. split; [eexists|]; reflexivity.
Qed.

(** X21: with SOURCE_HOST set, fetchArtifact ignores the URL of the artifact:
    two repositories with the same name and namespace are fetched alike. *)
Theorem source_host_overrides_artifact_url (repository repository' : GitRepository)
    (artifact artifact' : Artifact) (dir : string) (d : Disk) :
  Getenv net "SOURCE_HOST" <> "" ->
  repoName repository = repoName repository' ->
  repoNamespace repository = repoNamespace repository' ->
  repoArtifact repository = Some artifact ->
  repoArtifact repository' = Some artifact' ->
  fetchArtifact net repository dir d = fetchArtifact net repository' dir d.
Proof.
  intros Hh Hn Hs Ha Ha'. unfold fetchArtifact. rewrite Ha, Ha', Hn, Hs.
  apply String.eqb_neq in Hh. rewrite Hh. reflexivity.
Qed.

End FetchExtras.

(** ** The further properties at sample inputs *)

Lemma mutation_ends_the_pass_witness :
  fst (eval (reconcileLayer (texts:=sampleTexts) sampleWorld
               (sampleReconciler pruneFailsApplier "v1.18.0" (addonsLayer pendingLayer)))
            (startOf pendingLayer))
  = {| Requeue := true; RequeueAfter := delay pendingLayer |}.
Proof.
  apply (@mutation_ends_the_pass sampleTexts sampleWorld
           (sampleReconciler pruneFailsApplier "v1.18.0" (addonsLayer pendingLayer))
           pendingLayer).
  vm_compute. reflexivity.
Defined.

Lemma query_error_fails_layer_witness :
  stateOf (exec (reconcileLayer (texts:=sampleTexts) sampleWorld
                   (sampleReconciler queryFailsApplier "v1.18.0" (addonsLayer pendingLayer)))
                (startOf pendingLayer)) = FailedCondition.
Proof.
  apply (@query_error_fails_layer sampleTexts sampleWorld
           (sampleReconciler queryFailsApplier "v1.18.0" (addonsLayer pendingLayer))
           pendingLayer (NewError "list releases: forbidden")).
  - reflexivity.
  - vm_compute. reflexivity.
Defined.

Lemma version_gate_is_strict_witness :
  stateOf (exec (reconcileLayer (texts:=sampleTexts) sampleWorld
                   (sampleReconciler quietApplier "v1.18.0" (addonsLayer exactLayer)))
                (startOf exactLayer)) = K8sVersionCondition.
Proof.
  apply (proj1 (@version_gate_is_strict sampleTexts sampleWorld
                  (sampleReconciler quietApplier "v1.18.0" (addonsLayer exactLayer))
                  exactLayer "v1.18.0" eq_refl eq_refl)).
  left. reflexivity.
Defined.

Lemma version_lookup_failure_waits_witness :
  stateOf (exec (reconcileLayer (texts:=sampleTexts) sampleWorld
                   (sampleReconciler quietApplier "v1.18.0" (addonsLayer pendingLayer)))
                (startOf unreachableLayer)) = K8sVersionCondition.
Proof.
  apply (@version_lookup_failure_waits sampleTexts sampleWorld
           (sampleReconciler quietApplier "v1.18.0" (addonsLayer pendingLayer))
           unreachableLayer "" (NewError "dial tcp: connection refused")).
  - reflexivity.
  - reflexivity.
Defined.

Lemma ready_layer_becomes_deployed_then_rests_witness :
  eval (reconcileLayer (texts:=sampleTexts) sampleWorld
          (sampleReconciler quietApplier "v1.18.0" (addonsLayer fullLayer)))
       (startOf fullLayer) = (emptyResult, None).
Proof.
  apply (proj1 (@ready_layer_becomes_deployed_then_rests sampleTexts sampleWorld
                  (sampleReconciler quietApplier "v1.18.0" (addonsLayer fullLayer))
                  fullLayer "v1.18.0" []
                  eq_refl eq_refl eq_refl eq_refl eq_refl eq_refl eq_refl eq_refl eq_refl)).
  reflexivity.
Defined.

Lemma held_layer_rests_after_first_pass_witness :
  fst (eval (reconcileLayer (texts:=sampleTexts) sampleWorld
               (sampleReconciler quietApplier "v1.18.0" (addonsLayer heldLayer)))
            (startOf heldLayer))
  = {| Requeue := true; RequeueAfter := 0%Z |}.
Proof.
  apply (proj2 (@held_layer_rests_after_first_pass sampleTexts sampleWorld
                  (sampleReconciler quietApplier "v1.18.0" (addonsLayer heldLayer))
                  heldLayer eq_refl eq_refl eq_refl eq_refl)).
  cbn. discriminate.
Defined.

Lemma status_written_back_once_and_last_witness :
  snd (eval (reconcileLayer (texts:=sampleTexts) sampleWorld
               (sampleReconciler pruneFailsApplier "v1.18.0" (addonsLayer pendingLayer)))
            (startOf pendingLayer))
  = StatusUpdate_ (sampleClient (addonsLayer pendingLayer))
      (addonsLayer (layer (exec (reconcileLayer (texts:=sampleTexts) sampleWorld
               (sampleReconciler pruneFailsApplier "v1.18.0" (addonsLayer pendingLayer)))
            (startOf pendingLayer)))).
Proof.
  apply (proj1 (@status_written_back_once_and_last sampleTexts sampleWorld
                  (sampleReconciler pruneFailsApplier "v1.18.0" (addonsLayer pendingLayer))
                  pendingLayer)).
  vm_compute. reflexivity.
Defined.

Lemma apply_needs_resolved_dependencies_witness :
  stateOf (exec (reconcileLayer (texts:=sampleTexts) readyWorld
                   (sampleReconciler applyFailsApplier "v1.18.0" (addonsLayer pendingLayer)))
                (startOf pendingLayer)) = ApplyingCondition.
Proof.
  apply (@apply_needs_resolved_dependencies sampleTexts readyWorld
           (sampleReconciler applyFailsApplier "v1.18.0" (addonsLayer pendingLayer))
           pendingLayer).
  vm_compute. reflexivity.
Defined.

Lemma Reconcile_of_unloadable_layer_witness :
  Reconcile (texts:=sampleTexts) sampleWorld absentReconciler "base"
  = (emptyResult, None, None).
Proof.
  exact (@Reconcile_of_unloadable_layer sampleTexts sampleWorld absentReconciler "base"
           (layerNamed "" "") (NotFoundError "addonslayers base not found") eq_refl).
Defined.

Lemma SetHold_settles_witness :
  stateOf (exec (SetHold (texts:=sampleTexts) sampleWorld) (startOf heldLayer))
  = HoldCondition.
Proof.
  apply (@SetHold_settles sampleTexts sampleWorld (startOf heldLayer)).
  reflexivity.
Defined.

Lemma SetStatusPruningToPruned_settles_witness :
  stateOf (exec (SetStatusPruningToPruned (texts:=sampleTexts) sampleWorld)
                (startOf pruningLayer)) = PrunedCondition.
Proof.
  apply (@SetStatusPruningToPruned_settles sampleTexts sampleWorld (startOf pruningLayer)).
  left. reflexivity.
Defined.

Lemma mapping_gives_up_without_linking_witness :
  fst (Mapper.repoMapperFunc (sampleNet 200%Z "200 OK") sampleHost twoLayersReconciler
         foreignChange [])
  = (Sync.Returned [], []).
Proof.
  apply (@mapping_gives_up_without_linking _ (sampleNet 200%Z "200 OK") sampleHost
           twoLayersReconciler foreignChange []).
  reflexivity.
Defined.

Lemma kind_is_only_logged_witness :
  fst (Mapper.repoMapperFunc (sampleNet 200%Z "200 OK") sampleHost twoLayersReconciler
         mislabelledChange [])
  = fst (Mapper.repoMapperFunc (sampleNet 200%Z "200 OK") sampleHost twoLayersReconciler
           sampleChange []).
Proof.
  apply (@kind_is_only_logged _ (sampleNet 200%Z "200 OK") sampleHost twoLayersReconciler
           mislabelledChange sampleChange []).
  reflexivity.
Defined.

Lemma fetch_unpacks_only_a_200_witness :
  Fetch.fetchArtifact (sampleNet 404%Z "404 Not Found") sampleRepo "/tmp/addons-1" []
  = ("", Some (NewError "faild to download artifact, status: 404 Not Found"), []).
Proof.
  apply (@fetch_unpacks_only_a_200 _ (sampleNet 404%Z "404 Not Found") sampleRepo
           {| Sync.artURL := "http://source/addons.tar.gz";
              Sync.artRevision := "master/1a2b3c" |}
           "/tmp/addons-1" []
           {| Fetch.StatusCode := 404%Z; Fetch.Status := "404 Not Found";
              Fetch.Body := "archive" |}).
  - reflexivity.
  - reflexivity.
  - reflexivity.
  - reflexivity.
  - cbv. discriminate.
Defined.


Lemma sampleNet_rejects_separators (code : Z) (status : string) :
  rejectsSeparators (sampleNet code status).
Proof.
  intros pattern d H. cbn. unfold sampleTempDir. rewrite H. eexists. reflexivity.
Qed.

Lemma mapping_stops_in_SyncRepo_witness :
  exists e log,
    Mapper.repoMapperFunc (sampleNet 200%Z "200 OK") sampleHost twoLayersReconciler
      sampleChange []
    = (Sync.Returned [], [],
       log ++ [Sync.LogError ("failed to create temp dir, error: " ++ Error e)%string
                             "unable to sync repository"]).
Proof.
  apply (proj1 (@mapping_stops_in_SyncRepo _ (sampleNet 200%Z "200 OK") sampleHost
                  twoLayersReconciler sampleChange sampleRepo [] eq_refl)
               {| Sync.artURL := "http://source/addons.tar.gz";
                  Sync.artRevision := "master/1a2b3c" |}).
  - apply sampleNet_rejects_separators.
  - reflexivity.
Defined.

Lemma SyncRepo_without_artifact_panics_witness :
  exists reason, Fetch.SyncRepo (sampleNet 200%Z "200 OK") bareRepo [] = Fetch.Panicked reason.
Proof.
  apply (@SyncRepo_without_artifact_panics _ (sampleNet 200%Z "200 OK") bareRepo "" []).
  reflexivity.
Defined.

Lemma source_host_overrides_artifact_url_witness :
  Fetch.fetchArtifact localNet sampleRepo "/tmp/addons-1" []
  = Fetch.fetchArtifact localNet movedRepo "/tmp/addons-1" [].
Proof.
  apply (@source_host_overrides_artifact_url _ localNet sampleRepo movedRepo
           {| Sync.artURL := "http://source/addons.tar.gz";
              Sync.artRevision := "master/1a2b3c" |}
           {| Sync.artURL := "http://elsewhere/addons.tar.gz";
              Sync.artRevision := "master/4d5e6f" |}
           "/tmp/addons-1" []).
  - cbn. discriminate.
  - reflexivity.
  - reflexivity.
  - reflexivity.
  - reflexivity.
Defined.
